(** * Neutron detector network

    A shallow embedding of [src/neutron_detector.py]: the two SQLite tables
    ([detectors], [readings]) as a record of row lists, the methods of
    [NeutronDetectorNetwork] as functions over that store, and the Python
    exceptions they can raise as an error monad.

    Modelling conventions.

    - Numbers.  Every [float] of the program (cps, dose, baseline, threshold,
      sensitivity) is an exact rational of [Q]: arithmetic is exact, there is
      no rounding, no NaN and no infinity.  Decimal literals are written as
      in the source ([0.0064], [100.0], [0.005]).  Value equality of two
      numbers is [Qeq] ([==]); [=] is used where the program hands over the
      very same value.
    - Time.  A [datetime] is the number of microseconds since
      0001-01-01T00:00:00.  The program stores [isoformat()] strings and
      SQLite compares them as text; for the four-digit years of [datetime]
      that order is the chronological one and two strings are equal exactly
      when the instants are, so rows carry the instant itself.
    - Effects.  [datetime.now()] and [uuid.uuid4()] are inputs of the
      functions that call them (one argument per call, in call order).  The
      database is threaded explicitly; a connection is opened, committed and
      closed inside each method, so every method is one store transformer.
    - Failure.  A call that raises has written nothing: in every method an
      exception leaves before the first write of the call takes effect, so
      [Raise] carries no store and the store after such a call is the one
      before it ([store_after]).
    - Row order.  A table is the list of its rows in insertion order (the
      autoincrement key of [readings] is the position in the list).
      [ORDER BY timestamp] is a stable sort of the selected rows; SQLite
      leaves the order of rows with equal timestamps open, and the main
      statements below speak of the timestamps only. *)

From Stdlib Require Import ZArith QArith Qround List String Bool Lia Lqa.
From Stdlib Require Import Sorting.Permutation Sorting.Sorted.
Import ListNotations.

Local Open Scope string_scope.
Local Open Scope list_scope.
Local Open Scope Z_scope.
Local Open Scope Q_scope.

(** ** Python builtins used by the program *)

Module Py.

(** The exceptions that the modelled methods can raise, by class. *)
Inductive exn : Type :=
| ValueError (msg : string)
| ZeroDivisionError
| IntegrityError
| OverflowError.

Definition exn_class (e : exn) : string :=
  match e with
  | ValueError _ => "ValueError"
  | ZeroDivisionError => "ZeroDivisionError"
  | IntegrityError => "sqlite3.IntegrityError"
  | OverflowError => "OverflowError"
  end.

(** A call either returns a value or raises. *)
Inductive result (A : Type) : Type :=
| Ok (a : A)
| Raise (e : exn).
Arguments Ok {A} a.
Arguments Raise {A} e.

Definition bind {A B : Type} (m : result A) (k : A -> result B) : result B :=
  match m with
  | Ok a => k a
  | Raise e => Raise e
  end.

(** The call raises some exception. *)
Definition raises {A : Type} (m : result A) : Prop := exists e, m = Raise e.

(** [x > y] *)
Definition gt (x y : Q) : bool :=
  match Qcompare x y with
  | Gt => true
  | _ => false
  end.

(** [x / y]: true division raises on a zero divisor. *)
Definition truediv (x y : Q) : result Q :=
  if Qeq_bool y 0 then Raise ZeroDivisionError else Ok (x / y).

(** [sum(xs)]: left to right from the integer 0. *)
Definition sum (xs : list Q) : Q := fold_left Qplus xs 0.

(** Rounding of a rational to the nearest integer, ties to even. *)
Definition round_half_even (x : Q) : Z :=
  let f := Qfloor x in
  match Qcompare (x - inject_Z f) (1 # 2) with
  | Lt => f
  | Gt => (f + 1)%Z
  | Eq => if Z.even f then f else (f + 1)%Z
  end.

(** [round(x, ndigits)] for a non-negative [ndigits]. *)
Definition round (x : Q) (ndigits : nat) : Q :=
  let p := inject_Z (10 ^ Z.of_nat ndigits) in
  inject_Z (round_half_even (x * p)) / p.

(** [d.get(key, default)] on a dict written as its item list. *)
Fixpoint dict_get {V : Type} (d : list (string * V)) (key : string) (default : V) : V :=
  match d with
  | [] => default
  | (k, v) :: d' => if String.eqb k key then v else dict_get d' key default
  end.

End Py.

Import Py.

Notation "x <- m ;; k" := (Py.bind m (fun x => k))
  (at level 61, m at next level, right associativity).

(** ** datetime *)

Definition datetime := Z.

Definition MICROSECONDS_PER_HOUR : Z := 3600000000.

(** [datetime.max], 9999-12-31T23:59:59.999999: day 3652059 of the
    proleptic calendar is the last one. *)
Definition DATETIME_MAX : Z := (3652059 * 24 * MICROSECONDS_PER_HOUR - 1)%Z.

(** [now - timedelta(hours=hours)]: raises [OverflowError] when the
    result is not a [datetime]. *)
Definition minus_hours (now : datetime) (hours : Z) : result datetime :=
  let t := (now - hours * MICROSECONDS_PER_HOUR)%Z in
  if ((0 <=? t) && (t <=? DATETIME_MAX))%Z then Ok t else Raise OverflowError.

(** ** Data model *)

(** A row of the [detectors] table: the fields of [DetectorUnit] and the
    [alert_threshold] column. *)
Record DetectorUnit : Type := {
  id : string;
  name : string;
  location : string;
  type : string;
  sensitivity : Q;
  baseline_cps : Q;
  status : string;
  last_calibration : datetime;
  alert_threshold : Q
}.

(** The dataclass [NeutronReading]; also a row of the [readings] table. *)
Record NeutronReading : Type := {
  detector_id : string;
  cps : Q;
  dose_usv_h : Q;
  timestamp : datetime;
  alert_triggered : bool
}.

Record db : Type := {
  detectors : list DetectorUnit;
  readings : list NeutronReading
}.

Definition empty_db : db := {| detectors := []; readings := [] |}.

(** ** Queries *)

(** [SELECT ... FROM detectors WHERE id = ?] followed by [fetchone()]. *)
Definition select_detector (detector_id : string) (st : db) : option DetectorUnit :=
  find (fun d => String.eqb (id d) detector_id) (detectors st).

(** [UPDATE detectors SET ... WHERE id = ?] *)
Definition update_detectors (detector_id : string) (f : DetectorUnit -> DetectorUnit)
    (st : db) : db :=
  {| detectors := map (fun d => if String.eqb (id d) detector_id then f d else d)
                      (detectors st);
     readings := readings st |}.

(** [INSERT INTO readings ...] *)
Definition insert_reading (r : NeutronReading) (st : db) : db :=
  {| detectors := detectors st; readings := readings st ++ [r] |}.

(** Stable insertion sort under a boolean order. *)
Section Sort.
Context {A : Type} (leb : A -> A -> bool).

Fixpoint insert_sorted (x : A) (l : list A) : list A :=
  match l with
  | [] => [x]
  | y :: l' => if leb x y then x :: l else y :: insert_sorted x l'
  end.

Definition sort_by (l : list A) : list A := fold_right insert_sorted [] l.
End Sort.

Definition timestamp_asc (a b : NeutronReading) : bool :=
  (timestamp a <=? timestamp b)%Z.
Definition timestamp_desc (a b : NeutronReading) : bool :=
  (timestamp b <=? timestamp a)%Z.

(** [SELECT ... FROM readings WHERE detector_id = ? ORDER BY timestamp DESC
    LIMIT 1] followed by [fetchone()]. *)
Definition latest_reading (did : string) (st : db) : option NeutronReading :=
  hd_error (sort_by timestamp_desc
              (filter (fun r => String.eqb (detector_id r) did) (readings st))).

(** The rows that satisfy [detector_id = ? AND timestamp >= ?], in table
    order. *)
Definition window (did : string) (since : datetime) (st : db) : list NeutronReading :=
  filter (fun r => String.eqb (detector_id r) did && (since <=? timestamp r)%Z)
         (readings st).

(** [SELECT ... FROM readings WHERE detector_id = ? AND timestamp >= ?
    ORDER BY timestamp] *)
Definition readings_since (did : string) (since : datetime) (st : db)
    : list NeutronReading :=
  sort_by timestamp_asc (window did since st).

(** The store that a call leaves behind. *)
Definition store_after {A : Type} (st : db) (m : result (A * db)) : db :=
  match m with
  | Ok (_, st') => st'
  | Raise _ => st
  end.

(** ** NeutronDetectorNetwork *)

Definition CPS_TO_DOSE : list (string * Q) :=
  [ ("he3_tube", 0.0064);
    ("boron_lined", 0.0042);
    ("scintillator", 0.0055);
    ("fission_chamber", 0.0075);
    ("activation_foil", 0.0045) ].

(** [uuid8] is [str(uuid.uuid4())[:8]] and [now] the clock read of the call.
    The [INSERT] raises on a primary key that is already present. *)
Definition register_detector (uuid8 : string) (now : datetime)
    (name location detector_type : string) (sensitivity : Q) (st : db)
    : result (string * db) :=
  let detector_id := uuid8 in
  match select_detector detector_id st with
  | Some _ => Raise IntegrityError
  | None =>
      Ok (detector_id,
          {| detectors := detectors st ++
               [ {| id := detector_id; name := name; location := location;
                    type := detector_type; sensitivity := sensitivity;
                    baseline_cps := 0.0; status := "online";
                    last_calibration := now; alert_threshold := 100.0 |} ];
             readings := readings st |})
  end.

Definition record_reading (now : datetime) (detector_id : string) (cps : Q) (st : db)
    : result (NeutronReading * db) :=
  match select_detector detector_id st with
  | None => Raise (ValueError ("Detector " ++ detector_id ++ " not found")%string)
  | Some detector_row =>
      let detector_type := type detector_row in
      let threshold := alert_threshold detector_row in
      let conversion_factor := dict_get CPS_TO_DOSE detector_type 0.005 in
      let dose_usv_h := cps * conversion_factor in
      let alert_triggered := Py.gt cps threshold in
      let timestamp := now in
      let reading :=
        {| detector_id := detector_id; cps := cps; dose_usv_h := dose_usv_h;
           timestamp := timestamp; alert_triggered := alert_triggered |} in
      Ok (reading, insert_reading reading st)
  end.

Definition set_threshold (detector_id : string) (alert_cps : Q) (st : db) : bool * db :=
  (true,
   update_detectors detector_id
     (fun d => {| id := id d; name := name d; location := location d;
                  type := type d; sensitivity := sensitivity d;
                  baseline_cps := baseline_cps d; status := status d;
                  last_calibration := last_calibration d;
                  alert_threshold := alert_cps |})
     st).

(** An element of the list returned by [fleet_status]. *)
Record status_entry : Type := {
  st_id : string;
  st_name : string;
  st_location : string;
  st_type : string;
  st_status : string;
  st_cps : Q;
  st_dose_usv_h : Q;
  st_timestamp : datetime
}.

Definition fleet_status (st : db) : list status_entry :=
  fold_left
    (fun status_list detector =>
       match latest_reading (id detector) st with
       | Some reading =>
           status_list ++
             [ {| st_id := id detector; st_name := name detector;
                  st_location := location detector; st_type := type detector;
                  st_status := status detector; st_cps := cps reading;
                  st_dose_usv_h := dose_usv_h reading;
                  st_timestamp := timestamp reading |} ]
       | None => status_list
       end)
    (detectors st) [].

(** An element of the list returned by [anomaly_scan]. *)
Record anomaly : Type := {
  an_detector_id : string;
  an_baseline_cps : Q;
  an_current_cps : Q;
  an_multiplier : Q;
  an_timestamp : datetime
}.

(** One iteration of the loop of [anomaly_scan]. *)
Definition anomaly_step (st : db) (anomalies : list anomaly) (detector : DetectorUnit)
    : result (list anomaly) :=
  let baseline := baseline_cps detector in
  match latest_reading (id detector) st with
  | Some reading =>
      if Py.gt (cps reading) (baseline * 3) then
        q <- Py.truediv (cps reading) baseline ;;
        Ok (anomalies ++
              [ {| an_detector_id := id detector; an_baseline_cps := baseline;
                   an_current_cps := cps reading;
                   an_multiplier := Py.round q 2;
                   an_timestamp := timestamp reading |} ])
      else Ok anomalies
  | None => Ok anomalies
  end.

Definition anomaly_scan (st : db) : result (list anomaly) :=
  fold_left (fun acc detector => anomalies <- acc ;; anomaly_step st anomalies detector)
            (detectors st) (Ok []).

Definition get_spectrum (now : datetime) (detector_id : string) (hours : Z) (st : db)
    : result (list (datetime * Q)) :=
  since <- minus_hours now hours ;;
  Ok (map (fun r => (timestamp r, cps r)) (readings_since detector_id since st)).

(** [now_spectrum] is the clock read inside [get_spectrum], [now] the later
    one that stamps the calibration. *)
Definition calibrate (now_spectrum now : datetime) (detector_id : string) (st : db)
    : result (Q * db) :=
  spectrum <- get_spectrum now_spectrum detector_id 24 st ;;
  match spectrum with
  | [] => Ok (0.0, st)
  | _ :: _ =>
      avg_cps <- Py.truediv (Py.sum (map snd spectrum))
                            (inject_Z (Z.of_nat (List.length spectrum))) ;;
      Ok (avg_cps,
          update_detectors detector_id
            (fun d => {| id := id d; name := name d; location := location d;
                         type := type d; sensitivity := sensitivity d;
                         baseline_cps := avg_cps; status := status d;
                         last_calibration := now;
                         alert_threshold := alert_threshold d |})
            st)
  end.

(** ** Vocabulary of the statements *)

(** The relation decided by a boolean order. *)
Definition holds {A : Type} (leb : A -> A -> bool) (a b : A) : Prop := leb a b = true.

(** [r] is a reading of detector [did] that no other reading of [did] is
    later than. *)
Definition most_recent (st : db) (did : string) (r : NeutronReading) : Prop :=
  In r (readings st) /\ detector_id r = did /\
  forall r', In r' (readings st) -> detector_id r' = did ->
             (timestamp r' <= timestamp r)%Z.

(** Detector [did] has at least one stored reading. *)
Definition has_reading (st : db) (did : string) : Prop :=
  exists r, In r (readings st) /\ detector_id r = did.

(** The five detector types of the conversion table. *)
Definition recognized_types : list string :=
  [ "he3_tube"; "boron_lined"; "scintillator"; "fission_chamber"; "activation_foil" ].

(** The row written by a registration. *)
Definition fresh_unit (uuid8 : string) (now : datetime) (name location ty : string)
    (sens : Q) : DetectorUnit :=
  {| id := uuid8; name := name; location := location; type := ty;
     sensitivity := sens; baseline_cps := 0.0; status := "online";
     last_calibration := now; alert_threshold := 100.0 |}.

(** The status record built from a detector row and a reading. *)
Definition status_of (d : DetectorUnit) (r : NeutronReading) : status_entry :=
  {| st_id := id d; st_name := name d; st_location := location d;
     st_type := type d; st_status := status d; st_cps := cps r;
     st_dose_usv_h := dose_usv_h r; st_timestamp := timestamp r |}.

(** What one iteration of the loop of [fleet_status] appends. *)
Definition status_of_detector (st : db) (d : DetectorUnit) : list status_entry :=
  match latest_reading (id d) st with
  | Some r => [status_of d r]
  | None => []
  end.

(** The anomaly record built from a detector row and a reading. *)
Definition anomaly_of (d : DetectorUnit) (r : NeutronReading) : anomaly :=
  {| an_detector_id := id d; an_baseline_cps := baseline_cps d;
     an_current_cps := cps r;
     an_multiplier := Py.round (cps r / baseline_cps d) 2;
     an_timestamp := timestamp r |}.

(** The latest reading of [d] is above three times its baseline. *)
Definition exceeds_baseline (st : db) (d : DetectorUnit) (r : NeutronReading) : Prop :=
  latest_reading (id d) st = Some r /\ baseline_cps d * 3 < cps r.

(** [d] sends the loop of [anomaly_scan] into a division by zero. *)
Definition divides_by_zero (st : db) (d : DetectorUnit) : Prop :=
  exists r, exceeds_baseline st d r /\ baseline_cps d == 0.

(** What one iteration appends when it does not raise. *)
Definition anomalies_of (st : db) (d : DetectorUnit) : list anomaly :=
  match latest_reading (id d) st with
  | Some r => if Py.gt (cps r) (baseline_cps d * 3) then [anomaly_of d r] else []
  | None => []
  end.

(** The loop of [anomaly_scan] from an accumulator. *)
Definition scan_from (st : db) (ds : list DetectorUnit) (acc : result (list anomaly))
    : result (list anomaly) :=
  fold_left (fun acc detector => anomalies <- acc ;; anomaly_step st anomalies detector)
            ds acc.

(** The arithmetic mean of a list of numbers. *)
Definition arithmetic_mean (xs : list Q) : Q :=
  fold_right Qplus 0 xs / inject_Z (Z.of_nat (List.length xs)).

(** The row of [d] after a calibration to [avg] at [now]. *)
Definition calibrated (d : DetectorUnit) (avg : Q) (now : datetime) : DetectorUnit :=
  {| id := id d; name := name d; location := location d; type := type d;
     sensitivity := sensitivity d; baseline_cps := avg; status := status d;
     last_calibration := now; alert_threshold := alert_threshold d |}.

(** The number of entries of a spectrum that carry timestamp [ts] and a
    count rate equal to [c]. *)
Definition occurrences (ts : datetime) (c : Q) (l : list (datetime * Q)) : nat :=
  List.length (filter (fun p => (fst p =? ts)%Z && Qeq_bool (snd p) c) l).

(** ** Concrete scenarios *)

(** 2026-11-03T10:02:00 and instants some seconds later. *)
Definition t0 : datetime := 63929296920000000%Z.
Definition after_seconds (s : Z) : datetime := (t0 + s * 1000000)%Z.

(** A store with one freshly registered helium-3 tube. *)
Definition hall_unit : DetectorUnit :=
  fresh_unit "0a1b2c3d" t0 "N1" "hall" "he3_tube" 1.0.
Definition hall_store : db := {| detectors := [hall_unit]; readings := [] |}.

(** The helium-3 tube, still at its registration baseline 0.0, with one
    reading of 1 cps. *)
Definition positive_reading : NeutronReading :=
  {| detector_id := "0a1b2c3d"; cps := 1.0; dose_usv_h := 1.0 * 0.0064;
     timestamp := after_seconds 5; alert_triggered := false |}.
Definition one_positive_reading : db :=
  {| detectors := [hall_unit]; readings := [positive_reading] |}.

(** The helium-3 tube with readings of 10 and 20 cps. *)
Definition hall_readings : db :=
  {| detectors := [hall_unit];
     readings :=
       [ {| detector_id := "0a1b2c3d"; cps := 10; dose_usv_h := 10 * 0.0064;
            timestamp := after_seconds 5; alert_triggered := false |};
         {| detector_id := "0a1b2c3d"; cps := 20; dose_usv_h := 20 * 0.0064;
            timestamp := after_seconds 6; alert_triggered := false |} ] |}.

(** ** Dose query and export *)

(** [SELECT SUM(dose_usv_h) FROM readings WHERE detector_id = ? AND
    timestamp >= ?] followed by [fetchone()[0]]: the sum over the selected
    rows, and NULL, read as [None], when no row is selected. *)
Definition sum_dose_since (did : string) (since : datetime) (st : db) : option Q :=
  match window did since st with
  | [] => None
  | r :: rows => Some (Py.sum (map dose_usv_h (r :: rows)))
  end.

(** [result if result else 0.0]: [None] and a zero sum both give the
    literal [0.0]. *)
Definition get_dose (now : datetime) (detector_id : string) (hours : Z) (st : db)
    : result Q :=
  since <- minus_hours now hours ;;
  match sum_dose_since detector_id since st with
  | Some result => if Qeq_bool result 0 then Ok 0.0 else Ok result
  | None => Ok 0.0
  end.

(** A field handed to [csv.writer]: a string, a number or a timestamp. *)
Inductive cell : Type :=
| Text (s : string)
| Real (x : Q)
| Instant (t : datetime).

(** [SELECT timestamp, cps, dose_usv_h FROM readings WHERE detector_id = ?
    ORDER BY timestamp] *)
Definition readings_of (did : string) (st : db) : list NeutronReading :=
  sort_by timestamp_asc
    (filter (fun r => String.eqb (detector_id r) did) (readings st)).

(** The row that [export_ndf] writes for a reading. *)
Definition reading_row (r : NeutronReading) : list cell :=
  [Instant (timestamp r); Real (cps r); Real (dose_usv_h r)].

(** [export_ndf]: the value returned and the rows passed to
    [writer.writerow], in order.  Creating the directory of [output_path]
    and opening the file are calls into the file system, which is not
    modelled: the second component is what a run in which they succeed
    writes, and it is empty when the method returns [False], which it does
    before any of those calls. *)
Definition export_ndf (detector_id output_path : string) (st : db)
    : bool * list (list cell) :=
  match select_detector detector_id st with
  | None => (false, [])
  | Some detector =>
      let readings := readings_of detector_id st in
      (true,
       [Text "Detector"; Text "Location"; Text "Type"; Text "Baseline_CPS"]
       :: [Text (name detector); Text (location detector); Text (type detector);
           Real (baseline_cps detector)]
       :: []
       :: [Text "Timestamp"; Text "CPS"; Text "Dose_uSv_h"]
       :: map reading_row readings)
  end.

(** ** Sequences of calls *)

(** The calls that can write to the store, with the clock reads and the
    random identifier they consume. *)
Inductive call : Type :=
| Register (uuid8 : string) (now : datetime) (name location detector_type : string)
           (sensitivity : Q)
| Record (now : datetime) (detector_id : string) (cps : Q)
| SetThreshold (detector_id : string) (alert_cps : Q)
| Calibrate (now_spectrum now : datetime) (detector_id : string).

(** The store after one call; a call that raises leaves it as it was. *)
Definition run_call (c : call) (st : db) : db :=
  match c with
  | Register uuid8 now name location detector_type sensitivity =>
      store_after st (register_detector uuid8 now name location detector_type
                        sensitivity st)
  | Record now detector_id cps => store_after st (record_reading now detector_id cps st)
  | SetThreshold detector_id alert_cps => snd (set_threshold detector_id alert_cps st)
  | Calibrate now_spectrum now detector_id =>
      store_after st (calibrate now_spectrum now detector_id st)
  end.

(** The store after a sequence of calls, first call first. *)
Definition run_calls (cs : list call) (st : db) : db :=
  fold_left (fun st c => run_call c st) cs st.

(** The stores that calls on a new database can produce. *)
Definition reachable (st : db) : Prop := exists cs, st = run_calls cs empty_db.

(** ** Vocabulary of the further statements *)

(** No two detector rows share an identifier. *)
Definition unique_ids (st : db) : Prop := NoDup (map id (detectors st)).

(** Every stored reading belongs to a stored detector and carries the dose
    that the conversion table gives for that detector's type. *)
Definition doses_follow_table (st : db) : Prop :=
  forall r, In r (readings st) ->
    exists d, In d (detectors st) /\ id d = detector_id r /\
              dose_usv_h r = cps r * dict_get CPS_TO_DOSE (type d) 0.005.

(** Every detector row has the status written at registration. *)
Definition all_online (st : db) : Prop :=
  forall d, In d (detectors st) -> status d = "online".

(** The columns of a detector row that no call rewrites. *)
Definition identity_of (d : DetectorUnit)
    : string * string * string * string * Q * string :=
  (id d, name d, location d, type d, sensitivity d, status d).

(** Detector [did] has a stored reading, as a boolean. *)
Definition has_readingb (st : db) (did : string) : bool :=
  existsb (fun r => String.eqb (detector_id r) did) (readings st).

(** The latest reading of [d] is above three times its baseline, as a
    boolean. *)
Definition exceedsb (st : db) (d : DetectorUnit) : bool :=
  match latest_reading (id d) st with
  | Some r => Py.gt (cps r) (baseline_cps d * 3)
  | None => false
  end.

(** What one call can do to the store: nothing, append a detector row under
    a new identifier, append a reading of a stored detector with the dose of
    the table, or rewrite detector rows without touching the columns of
    [identity_of]. *)
Inductive effect (st : db) : db -> Prop :=
| effect_none : effect st st
| effect_register (uuid8 : string) (now : datetime) (name location ty : string) (sens : Q) :
    select_detector uuid8 st = None ->
    effect st {| detectors := detectors st ++ [fresh_unit uuid8 now name location ty sens];
                 readings := readings st |}
| effect_record (now : datetime) (did : string) (c : Q) (d : DetectorUnit) :
    select_detector did st = Some d ->
    effect st (insert_reading
                 {| detector_id := did; cps := c;
                    dose_usv_h := c * dict_get CPS_TO_DOSE (type d) 0.005;
                    timestamp := now;
                    alert_triggered := Py.gt c (alert_threshold d) |} st)
| effect_update (did : string) (f : DetectorUnit -> DetectorUnit) :
    (forall d, identity_of (f d) = identity_of d) ->
    effect st (update_detectors did f st).

(** ** Further scenarios *)

(** Calls of every kind, among them a registration under a stored
    identifier and a reading for an unknown detector. *)
Definition sample_calls : list call :=
  [ Register "4e5f6a7b" (after_seconds 1) "N2" "roof" "geiger" 1.0;
    Register "0a1b2c3d" (after_seconds 2) "N3" "yard" "he3_tube" 1.0;
    Record (after_seconds 3) "4e5f6a7b" 20;
    Record (after_seconds 4) "ffffffff" 5;
    SetThreshold "0a1b2c3d" 10;
    Calibrate (after_seconds 9) (after_seconds 10) "4e5f6a7b" ].

(** The helium-3 tube calibrated to a baseline of 10 cps, with a later
    reading of 50 cps. *)
Definition calibrated_store : db :=
  {| detectors := [calibrated hall_unit 10 (after_seconds 11)];
     readings :=
       [ {| detector_id := "0a1b2c3d"; cps := 10; dose_usv_h := 10 * 0.0064;
            timestamp := after_seconds 5; alert_triggered := false |};
         {| detector_id := "0a1b2c3d"; cps := 50; dose_usv_h := 50 * 0.0064;
            timestamp := after_seconds 15; alert_triggered := false |} ] |}.

(** The anomaly that [calibrated_store] shows. *)
Definition calibrated_anomaly : anomaly :=
  anomaly_of (calibrated hall_unit 10 (after_seconds 11))
    {| detector_id := "0a1b2c3d"; cps := 50; dose_usv_h := 50 * 0.0064;
       timestamp := after_seconds 15; alert_triggered := false |}.

(** * Properties *)

(** ** Python builtins *)

Lemma gt_true_iff (x y : Q) : Py.gt x y = true <-> y < x.
Proof.
  unfold Py.gt. rewrite Qgt_alt.
  destruct (Qcompare x y); split; intro H; congruence.
Qed.

Lemma gt_false_iff (x y : Q) : Py.gt x y = false <-> x <= y.
Proof.
  rewrite Qle_alt. unfold Py.gt.
  destruct (Qcompare x y); split; intro H; congruence.
Qed.

Lemma truediv_zero (x y : Q) : y == 0 -> Py.truediv x y = Raise ZeroDivisionError.
Proof.
  intro H. unfold Py.truediv. now rewrite (Qeq_eq_bool _ _ H).
Qed.

Lemma truediv_nonzero (x y : Q) : ~ y == 0 -> Py.truediv x y = Ok (x / y).
Proof.
  intro H. unfold Py.truediv.
  destruct (Qeq_bool y 0) eqn:E; [|reflexivity].
  apply Qeq_bool_eq in E. contradiction.
Qed.

Lemma truediv_cases (x y : Q) :
  (y == 0 /\ Py.truediv x y = Raise ZeroDivisionError) \/
  (~ y == 0 /\ Py.truediv x y = Ok (x / y)).
Proof.
  destruct (Qeq_dec y 0) as [H|H]; [left|right]; split; trivial.
  - now apply truediv_zero.
  - now apply truediv_nonzero.
Qed.

(** [round_half_even] picks an integer at distance at most one half. *)
Lemma round_half_even_near (x : Q) :
  inject_Z (Py.round_half_even x) - (1 # 2) <= x /\
  x <= inject_Z (Py.round_half_even x) + (1 # 2).
Proof.
  unfold Py.round_half_even.
  pose proof (Qfloor_le x) as Hlo. pose proof (Qlt_floor x) as Hhi.
  rewrite inject_Z_plus in Hhi. change (inject_Z 1) with 1 in Hhi.
  destruct (Qcompare_spec (x - inject_Z (Qfloor x)) (1 # 2)) as [He|Hl|Hg].
  - destruct (Z.even (Qfloor x)).
    + split; lra.
    + rewrite inject_Z_plus. change (inject_Z 1) with 1. split; lra.
  - split; lra.
  - rewrite inject_Z_plus. change (inject_Z 1) with 1. split; lra.
Qed.

(** On a tie the even neighbour is taken. *)
Lemma round_half_even_tie (x : Q) :
  x - inject_Z (Qfloor x) == 1 # 2 -> Z.even (Py.round_half_even x) = true.
Proof.
  intro H. unfold Py.round_half_even.
  apply Qeq_alt in H. rewrite H.
  destruct (Z.even (Qfloor x)) eqn:E; [exact E|].
  rewrite Z.even_add, E. reflexivity.
Qed.

Example round_examples :
  Py.round 0.125 2 == 0.12 /\ Py.round 0.135 2 == 0.14 /\
  Py.round (-0.125) 2 == -0.12 /\ Py.round (10 / 3) 2 == 3.33.
Proof. repeat split. Qed.

Lemma fold_left_Qplus_acc (xs : list Q) (a : Q) :
  fold_left Qplus xs a == a + fold_right Qplus 0 xs.
Proof.
  revert a. induction xs as [|x xs IH]; intro a; simpl.
  - ring.
  - rewrite IH. ring.
Qed.

Lemma sum_fold_right (xs : list Q) : Py.sum xs == fold_right Qplus 0 xs.
Proof.
  unfold Py.sum. rewrite fold_left_Qplus_acc. ring.
Qed.

Lemma fold_right_Qplus_perm (xs ys : list Q) :
  Permutation xs ys -> fold_right Qplus 0 xs == fold_right Qplus 0 ys.
Proof.
  induction 1 as [|x l l' _ IH|x y l|l l' l'' _ IH1 _ IH2]; simpl.
  - reflexivity.
  - now rewrite IH.
  - ring.
  - now rewrite IH1.
Qed.

Lemma sum_perm (xs ys : list Q) : Permutation xs ys -> Py.sum xs == Py.sum ys.
Proof.
  intro H. rewrite !sum_fold_right. now apply fold_right_Qplus_perm.
Qed.

Lemma dict_get_In {V : Type} (d : list (string * V)) (key : string) (default v : V) :
  dict_get d key default = v ->
  In (key, v) d \/ ((forall w, ~ In (key, w) d) /\ v = default).
Proof.
  induction d as [|[k w] d IH]; simpl; intro H.
  - right. split; [tauto | congruence].
  - destruct (String.eqb k key) eqn:E.
    + apply String.eqb_eq in E. subst. now left; left.
    + apply String.eqb_neq in E. destruct (IH H) as [Hin|[Hno Hd]].
      * left. now right.
      * right. split; trivial. intros w' [Heq|Hin]; [congruence | now apply (Hno w')].
Qed.

(** ** Sorting *)

Section SortFacts.
Context {A : Type} (leb : A -> A -> bool).

Lemma insert_sorted_perm (x : A) (l : list A) :
  Permutation (insert_sorted leb x l) (x :: l).
Proof.
  induction l as [|y l IH]; simpl.
  - reflexivity.
  - destruct (leb x y).
    + reflexivity.
    + rewrite IH. apply perm_swap.
Qed.

Lemma sort_by_perm (l : list A) : Permutation (sort_by leb l) l.
Proof.
  induction l as [|x l IH]; simpl.
  - reflexivity.
  - rewrite insert_sorted_perm. now constructor.
Qed.

Lemma sort_by_In (l : list A) (x : A) : In x (sort_by leb l) <-> In x l.
Proof.
  split; apply Permutation_in; [|symmetry]; apply sort_by_perm.
Qed.

Lemma sort_by_nil (l : list A) : sort_by leb l = [] <-> l = [].
Proof.
  split; intro H.
  - apply Permutation_nil. rewrite <- H. apply sort_by_perm.
  - now subst.
Qed.

Lemma sort_by_length (l : list A) : List.length (sort_by leb l) = List.length l.
Proof. apply Permutation_length, sort_by_perm. Qed.

Hypothesis leb_total : forall a b, leb a b = true \/ leb b a = true.
Hypothesis leb_trans : forall a b c, leb a b = true -> leb b c = true -> leb a c = true.

Lemma insert_sorted_sorted (x : A) (l : list A) :
  StronglySorted (holds leb) l -> StronglySorted (holds leb) (insert_sorted leb x l).
Proof.
  induction 1 as [|y l Hs IH Hall]; simpl.
  - repeat constructor.
  - destruct (leb x y) eqn:E.
    + constructor; [now constructor|].
      constructor; [exact E|].
      eapply Forall_impl; [|exact Hall]. intros z Hz. now apply (leb_trans x y z).
    + constructor; [exact IH|].
      apply Forall_forall. intros z Hz.
      apply (Permutation_in _ (insert_sorted_perm x l)) in Hz.
      destruct Hz as [<-|Hz].
      * destruct (leb_total x y) as [H|H]; [congruence | exact H].
      * rewrite Forall_forall in Hall. now apply Hall.
Qed.

Lemma sort_by_sorted (l : list A) : StronglySorted (holds leb) (sort_by leb l).
Proof.
  induction l as [|x l IH]; simpl.
  - constructor.
  - now apply insert_sorted_sorted.
Qed.

Lemma sort_by_hd_least (l : list A) (x : A) :
  hd_error (sort_by leb l) = Some x ->
  In x l /\ forall y, In y l -> leb x y = true.
Proof.
  intro H. pose proof (sort_by_sorted l) as Hs.
  destruct (sort_by leb l) as [|z s] eqn:E; [discriminate|].
  simpl in H. injection H as ->.
  assert (Hin : forall y, In y l <-> In y (x :: s))
    by (intro y; rewrite <- E; symmetry; apply sort_by_In).
  split.
  - apply Hin. now left.
  - intros y Hy. apply Hin in Hy. inversion Hs as [|? ? _ Hall]; subst.
    destruct Hy as [<-|Hy].
    + destruct (leb_total x x); assumption.
    + rewrite Forall_forall in Hall. now apply Hall.
Qed.
End SortFacts.

Lemma timestamp_asc_total (a b : NeutronReading) :
  timestamp_asc a b = true \/ timestamp_asc b a = true.
Proof. unfold timestamp_asc. rewrite !Z.leb_le. lia. Qed.

Lemma timestamp_asc_trans (a b c : NeutronReading) :
  timestamp_asc a b = true -> timestamp_asc b c = true -> timestamp_asc a c = true.
Proof. unfold timestamp_asc. rewrite !Z.leb_le. lia. Qed.

Lemma timestamp_desc_total (a b : NeutronReading) :
  timestamp_desc a b = true \/ timestamp_desc b a = true.
Proof. unfold timestamp_desc. rewrite !Z.leb_le. lia. Qed.

Lemma timestamp_desc_trans (a b c : NeutronReading) :
  timestamp_desc a b = true -> timestamp_desc b c = true -> timestamp_desc a c = true.
Proof. unfold timestamp_desc. rewrite !Z.leb_le. lia. Qed.

(** ** The store *)

Lemma select_detector_Some (did : string) (st : db) (d : DetectorUnit) :
  select_detector did st = Some d -> In d (detectors st) /\ id d = did.
Proof.
  unfold select_detector. intro H. apply find_some in H.
  now rewrite String.eqb_eq in H.
Qed.

Lemma select_detector_None (did : string) (st : db) :
  select_detector did st = None <-> forall d, In d (detectors st) -> id d <> did.
Proof.
  unfold select_detector. split.
  - intros H d Hd. apply String.eqb_neq. exact (find_none _ _ H d Hd).
  - intro H. induction (detectors st) as [|d l IH]; simpl; [reflexivity|].
    destruct (String.eqb (id d) did) eqn:E.
    + apply String.eqb_eq in E. exfalso. apply (H d); [now left | exact E].
    + apply IH. intros d' Hd'. apply H. now right.
Qed.

Lemma latest_reading_None (did : string) (st : db) :
  latest_reading did st = None <-> ~ has_reading st did.
Proof.
  unfold latest_reading, has_reading.
  set (sel := filter _ _).
  assert (Hsel : forall r, In r sel <-> In r (readings st) /\ detector_id r = did).
  { intro r. unfold sel. rewrite filter_In, String.eqb_eq. tauto. }
  split.
  - intros H [r Hr].
    destruct (sort_by timestamp_desc sel) eqn:E; [|discriminate].
    apply sort_by_nil in E. apply Hsel in Hr. rewrite E in Hr. exact Hr.
  - intro H. destruct sel as [|r l] eqn:E; [reflexivity|].
    exfalso. apply H. exists r. apply Hsel. now left.
Qed.

Lemma latest_reading_Some (did : string) (st : db) (r : NeutronReading) :
  latest_reading did st = Some r -> most_recent st did r.
Proof.
  unfold latest_reading, most_recent. intro H.
  apply (sort_by_hd_least _ timestamp_desc_total timestamp_desc_trans) in H.
  destruct H as [Hin Hmax]. rewrite filter_In, String.eqb_eq in Hin.
  destruct Hin as [Hin Hid]. repeat split; trivial.
  intros r' Hr' Hid'. apply Z.leb_le. apply (Hmax r').
  rewrite filter_In, String.eqb_eq. now split.
Qed.

Lemma latest_reading_has (did : string) (st : db) :
  has_reading st did <-> exists r, latest_reading did st = Some r.
Proof.
  split.
  - intro H. destruct (latest_reading did st) as [r|] eqn:E; [now exists r|].
    apply latest_reading_None in E. contradiction.
  - intros [r Hr] . apply latest_reading_Some in Hr.
    exists r. split; apply Hr.
Qed.

(** Updating detector rows keeps the identifiers and the readings. *)
Lemma update_detectors_readings (did : string) (f : DetectorUnit -> DetectorUnit) (st : db) :
  readings (update_detectors did f st) = readings st.
Proof. reflexivity. Qed.

Lemma update_detectors_absent (did : string) (f : DetectorUnit -> DetectorUnit) (st : db) :
  select_detector did st = None -> update_detectors did f st = st.
Proof.
  rewrite select_detector_None. intro H.
  destruct st as [ds rs]. unfold update_detectors. simpl in *. f_equal.
  induction ds as [|d ds IH]; simpl; [reflexivity|].
  rewrite IH by (intros d' Hd'; apply H; now right).
  assert (E : String.eqb (id d) did = false)
    by (apply String.eqb_neq, H; now left).
  now rewrite E.
Qed.

Lemma update_detectors_select (did other : string) (f : DetectorUnit -> DetectorUnit)
    (st : db) :
  (forall d, id (f d) = id d) ->
  select_detector other (update_detectors did f st) =
  option_map (fun d => if String.eqb (id d) did then f d else d)
             (select_detector other st).
Proof.
  intro Hf. unfold select_detector, update_detectors. simpl.
  induction (detectors st) as [|d l IH]; simpl; [reflexivity|].
  destruct (String.eqb (id d) did) eqn:E.
  - rewrite Hf. destruct (String.eqb (id d) other); simpl; [now rewrite E | exact IH].
  - destruct (String.eqb (id d) other); simpl; [now rewrite E | exact IH].
Qed.

(** ** Registration *)

Lemma select_detector_app (did : string) (ds : list DetectorUnit) (d : DetectorUnit)
    (rs : list NeutronReading) :
  select_detector did {| detectors := ds ++ [d]; readings := rs |} =
  match select_detector did {| detectors := ds; readings := rs |} with
  | Some d' => Some d'
  | None => if String.eqb (id d) did then Some d else None
  end.
Proof.
  unfold select_detector. simpl.
  induction ds as [|x ds IH]; simpl; [reflexivity|].
  now destruct (String.eqb (id x) did).
Qed.

(** C2, as the program behaves: [register_detector] checks none of its
    arguments.  Whatever the name, location and type are (empty, or a type
    outside the recognized set), a registration whose identifier is not yet
    stored returns that identifier and stores one detector row with the
    given values, baseline 0, status online and threshold 100; readings and
    the other detectors are left as they were. *)
Theorem register_detector_accepts_any_input
    (uuid8 : string) (now : datetime) (name location ty : string) (sens : Q) (st : db) :
  select_detector uuid8 st = None ->
  exists st',
    register_detector uuid8 now name location ty sens st = Ok (uuid8, st') /\
    select_detector uuid8 st' = Some (fresh_unit uuid8 now name location ty sens) /\
    detectors st' = detectors st ++ [fresh_unit uuid8 now name location ty sens] /\
    readings st' = readings st /\
    forall other, other <> uuid8 -> select_detector other st' = select_detector other st.
Proof.
  intro Hfresh. unfold register_detector. rewrite Hfresh.
  eexists. split; [reflexivity|]. destruct st as [ds rs]. simpl.
  repeat split.
  - rewrite select_detector_app, Hfresh. simpl. now rewrite String.eqb_refl.
  - intros other Hne. rewrite select_detector_app.
    destruct (select_detector other _); [reflexivity|].
    simpl. apply String.eqb_neq in Hne. rewrite String.eqb_sym in Hne. now rewrite Hne.
Qed.

Lemma register_detector_accepts_any_input_witness :
  select_detector "0a1b2c3d" empty_db = None /\
  exists st',
    register_detector "0a1b2c3d" t0 "" "" "geiger" 1.0 empty_db = Ok ("0a1b2c3d", st') /\
    select_detector "0a1b2c3d" st' = Some (fresh_unit "0a1b2c3d" t0 "" "" "geiger" 1.0) /\
    detectors st' = detectors empty_db ++ [fresh_unit "0a1b2c3d" t0 "" "" "geiger" 1.0] /\
    readings st' = readings empty_db /\
    forall other, other <> "0a1b2c3d" ->
                  select_detector other st' = select_detector other empty_db.
Proof.
  split; [reflexivity|].
  apply (register_detector_accepts_any_input "0a1b2c3d" t0 "" "" "geiger" 1.0 empty_db).
  reflexivity.
Defined.

(** C2 as stated fails: with an empty name, an empty location and the
    unrecognized type "geiger" the call raises nothing and the detector row
    is created. *)
Lemma register_detector_no_validation_error :
  "" = "" /\ ~ In "geiger" recognized_types /\
  ~ Py.raises (register_detector "0a1b2c3d" t0 "" "" "geiger" 1.0 empty_db) /\
  register_detector "0a1b2c3d" t0 "" "" "geiger" 1.0 empty_db =
    Ok ("0a1b2c3d",
        {| detectors := [fresh_unit "0a1b2c3d" t0 "" "" "geiger" 1.0];
           readings := [] |}).
Proof.
  split; [reflexivity|]. split.
  - simpl. intros [H|[H|[H|[H|[H|[]]]]]]; discriminate H.
  - split; [|reflexivity]. intros [e He]. discriminate He.
Qed.

(** ** Reading ingestion *)

(** C4: the reading returned for a registered detector has
    [dose_usv_h = cps * factor], the factor being the table entry of the
    detector's type and 0.005 for a type outside the table. *)
Theorem record_reading_dose
    (st : db) (did : string) (d : DetectorUnit) (now : datetime) (c : Q) :
  select_detector did st = Some d ->
  exists r st',
    record_reading now did c st = Ok (r, st') /\
    cps r = c /\
    (type d = "he3_tube" -> dose_usv_h r = c * 0.0064) /\
    (type d = "boron_lined" -> dose_usv_h r = c * 0.0042) /\
    (type d = "scintillator" -> dose_usv_h r = c * 0.0055) /\
    (type d = "fission_chamber" -> dose_usv_h r = c * 0.0075) /\
    (type d = "activation_foil" -> dose_usv_h r = c * 0.0045) /\
    (~ In (type d) recognized_types -> dose_usv_h r = c * 0.005).
Proof.
  intro Hd. unfold record_reading. rewrite Hd.
  do 2 eexists. split; [reflexivity|]. simpl.
  split; [reflexivity|].
  repeat split; try (intros ->; reflexivity).
  intro Hout. f_equal.
  destruct (dict_get_In CPS_TO_DOSE (type d) 0.005 _ eq_refl) as [Hin|[_ Heq]];
    [|exact Heq].
  exfalso. apply Hout. unfold CPS_TO_DOSE in Hin. simpl in Hin |- *.
  repeat (destruct Hin as [Hin|Hin];
          [injection Hin as <- _; tauto|]).
  destruct Hin.
Qed.

Lemma record_reading_dose_witness :
  select_detector "0a1b2c3d" hall_store = Some hall_unit /\
  exists r st',
    record_reading (after_seconds 5) "0a1b2c3d" 50 hall_store = Ok (r, st') /\
    cps r = 50 /\
    (type hall_unit = "he3_tube" -> dose_usv_h r = 50 * 0.0064) /\
    (type hall_unit = "boron_lined" -> dose_usv_h r = 50 * 0.0042) /\
    (type hall_unit = "scintillator" -> dose_usv_h r = 50 * 0.0055) /\
    (type hall_unit = "fission_chamber" -> dose_usv_h r = 50 * 0.0075) /\
    (type hall_unit = "activation_foil" -> dose_usv_h r = 50 * 0.0045) /\
    (~ In (type hall_unit) recognized_types -> dose_usv_h r = 50 * 0.005).
Proof.
  split; [reflexivity|].
  apply (record_reading_dose hall_store "0a1b2c3d" hall_unit (after_seconds 5) 50).
  reflexivity.
Defined.

(** The example of the specification: a helium-3 tube at 50 cps gives
    0.32 uSv/h and no alert under the default threshold; 150 cps alerts. *)
Example record_reading_he3_50 :
  exists r st',
    record_reading (after_seconds 5) "0a1b2c3d" 50 hall_store = Ok (r, st') /\
    dose_usv_h r == 0.32 /\ alert_triggered r = false.
Proof. do 2 eexists. split; [reflexivity|]. split; reflexivity. Qed.

Example record_reading_he3_150 :
  exists r st',
    record_reading (after_seconds 5) "0a1b2c3d" 150 hall_store = Ok (r, st') /\
    alert_triggered r = true.
Proof. do 2 eexists. split; reflexivity. Qed.

(** C3: the alert flag of the reading that [record_reading] returns and
    stores is [cps > threshold] for the threshold stored when the reading is
    inserted, and no call of [set_threshold], on any store and for any
    detector and value, changes the stored readings. *)
Theorem alert_flag_fixed_at_insertion
    (st : db) (did : string) (d : DetectorUnit) (now : datetime) (c : Q) :
  select_detector did st = Some d ->
  exists r st',
    record_reading now did c st = Ok (r, st') /\
    (alert_triggered r = true <-> alert_threshold d < c) /\
    readings st' = readings st ++ [r] /\
    forall (st0 : db) (did' : string) (a : Q),
      readings (snd (set_threshold did' a st0)) = readings st0.
Proof.
  intro Hd. unfold record_reading. rewrite Hd.
  do 2 eexists. split; [reflexivity|]. simpl.
  split; [apply gt_true_iff|]. split; reflexivity.
Qed.

Lemma alert_flag_fixed_at_insertion_witness :
  select_detector "0a1b2c3d" hall_store = Some hall_unit /\
  exists r st',
    record_reading (after_seconds 5) "0a1b2c3d" 150 hall_store = Ok (r, st') /\
    (alert_triggered r = true <-> alert_threshold hall_unit < 150) /\
    readings st' = readings hall_store ++ [r] /\
    forall (st0 : db) (did' : string) (a : Q),
      readings (snd (set_threshold did' a st0)) = readings st0.
Proof.
  split; [reflexivity|].
  apply (alert_flag_fixed_at_insertion hall_store "0a1b2c3d" hall_unit
           (after_seconds 5) 150).
  reflexivity.
Defined.

(** A reading stored under threshold 100 keeps its flag when the threshold
    is lowered below its count rate afterwards. *)
Example threshold_change_is_not_retroactive :
  (y <- record_reading (after_seconds 5) "0a1b2c3d" 50 hall_store ;;
   Ok (map alert_triggered (readings (snd (set_threshold "0a1b2c3d" 10 (snd y))))))
  = Ok [false].
Proof. reflexivity. Qed.

(** C9, as the program behaves: for an identifier that is not stored,
    [record_reading] raises Python's built-in [ValueError] with the message
    "Detector <id> not found", and the store after the call is the store
    before it: no reading is inserted. *)
Theorem record_reading_unknown_detector
    (st : db) (did : string) (now : datetime) (c : Q) :
  select_detector did st = None ->
  record_reading now did c st =
    Raise (ValueError ("Detector " ++ did ++ " not found")%string) /\
  (forall e, record_reading now did c st = Raise e -> exn_class e = "ValueError") /\
  store_after st (record_reading now did c st) = st.
Proof.
  intro Hd. unfold record_reading. rewrite Hd. split; [reflexivity|].
  split; [|reflexivity].
  intros e He. injection He as <-. reflexivity.
Qed.

Lemma record_reading_unknown_detector_witness :
  select_detector "ffffffff" hall_store = None /\
  record_reading (after_seconds 5) "ffffffff" 12.5 hall_store =
    Raise (ValueError ("Detector " ++ "ffffffff" ++ " not found")%string) /\
  (forall e, record_reading (after_seconds 5) "ffffffff" 12.5 hall_store = Raise e ->
             exn_class e = "ValueError") /\
  store_after hall_store (record_reading (after_seconds 5) "ffffffff" 12.5 hall_store)
    = hall_store.
Proof.
  split; [reflexivity|].
  apply (record_reading_unknown_detector hall_store "ffffffff" (after_seconds 5) 12.5).
  reflexivity.
Defined.

(** C9 as stated fails: the exception raised for the unknown identifier
    "ffffffff" is not of a class named NotFoundError. *)
Lemma record_reading_unknown_not_NotFoundError :
  select_detector "ffffffff" hall_store = None /\
  ~ exists e, record_reading (after_seconds 5) "ffffffff" 12.5 hall_store = Raise e /\
              exn_class e = "NotFoundError".
Proof.
  split; [reflexivity|]. intros [e [He Hc]].
  injection He as <-. discriminate Hc.
Qed.

(** ** Threshold configuration *)

(** C10: [set_threshold] returns [True] for every identifier and every
    value; for an identifier that is not stored the store is returned as it
    was. *)
Theorem set_threshold_always_succeeds (did : string) (a : Q) (st : db) :
  fst (set_threshold did a st) = true /\
  (select_detector did st = None -> snd (set_threshold did a st) = st).
Proof.
  split; [reflexivity|]. intro H. simpl. now apply update_detectors_absent.
Qed.

Lemma set_threshold_always_succeeds_witness :
  select_detector "ffffffff" hall_store = None /\
  fst (set_threshold "ffffffff" (-5) hall_store) = true /\
  snd (set_threshold "ffffffff" (-5) hall_store) = hall_store.
Proof.
  split; [reflexivity|].
  destruct (set_threshold_always_succeeds "ffffffff" (-5) hall_store) as [H1 H2].
  split; [exact H1 | apply H2; reflexivity].
Defined.

(** For a stored identifier the threshold column of that row, and nothing
    else, is replaced. *)
Lemma set_threshold_stored (did : string) (a : Q) (st : db) (d : DetectorUnit) :
  select_detector did st = Some d ->
  select_detector did (snd (set_threshold did a st)) =
    Some {| id := id d; name := name d; location := location d; type := type d;
            sensitivity := sensitivity d; baseline_cps := baseline_cps d;
            status := status d; last_calibration := last_calibration d;
            alert_threshold := a |}.
Proof.
  intro Hd. simpl. rewrite update_detectors_select by reflexivity.
  rewrite Hd. simpl. apply select_detector_Some in Hd. destruct Hd as [_ <-].
  now rewrite String.eqb_refl.
Qed.

(** ** Fleet status *)

Lemma fleet_status_flat_map (st : db) :
  fleet_status st = flat_map (status_of_detector st) (detectors st).
Proof.
  unfold fleet_status.
  enough (H : forall ds acc,
             fold_left
               (fun status_list detector =>
                  match latest_reading (id detector) st with
                  | Some reading =>
                      status_list ++
                        [ {| st_id := id detector; st_name := name detector;
                             st_location := location detector;
                             st_type := type detector;
                             st_status := status detector; st_cps := cps reading;
                             st_dose_usv_h := dose_usv_h reading;
                             st_timestamp := timestamp reading |} ]
                  | None => status_list
                  end) ds acc
             = acc ++ flat_map (status_of_detector st) ds)
    by apply (H (detectors st) []).
  induction ds as [|d ds IH]; intro acc; simpl.
  - now rewrite app_nil_r.
  - rewrite IH. unfold status_of_detector at 2.
    destruct (latest_reading (id d) st); simpl.
    + now rewrite <- app_assoc.
    + reflexivity.
Qed.

Lemma fleet_status_In (st : db) (e : status_entry) :
  In e (fleet_status st) <->
  exists d r, In d (detectors st) /\ latest_reading (id d) st = Some r /\
              e = status_of d r.
Proof.
  rewrite fleet_status_flat_map, in_flat_map. unfold status_of_detector. split.
  - intros [d [Hd He]]. destruct (latest_reading (id d) st) as [r|] eqn:E.
    + destruct He as [<-|[]]. now exists d, r.
    + destruct He.
  - intros [d [r [Hd [Hr ->]]]]. exists d. split; [exact Hd|].
    rewrite Hr. now left.
Qed.

(** C7: a registered detector has an entry in the result of [fleet_status]
    exactly when it has a stored reading (so one without readings has none),
    and every entry carries the fields of its detector row together with
    cps, dose and timestamp of a most recent reading of that detector. *)
Theorem fleet_status_lists_detectors_with_readings (st : db) :
  (forall d, In d (detectors st) ->
     ((exists e, In e (fleet_status st) /\ st_id e = id d) <-> has_reading st (id d))) /\
  (forall d, In d (detectors st) -> ~ has_reading st (id d) ->
     forall e, In e (fleet_status st) -> st_id e <> id d) /\
  (forall e, In e (fleet_status st) ->
     exists d r, In d (detectors st) /\ most_recent st (id d) r /\
                 e = status_of d r).
Proof.
  assert (H3 : forall e, In e (fleet_status st) ->
     exists d r, In d (detectors st) /\ most_recent st (id d) r /\
                 e = status_of d r).
  { intros e He. apply fleet_status_In in He. destruct He as [d [r [Hd [Hr ->]]]].
    exists d, r. split; [exact Hd|].
    split; [now apply latest_reading_Some | reflexivity]. }
  assert (H1 : forall d, In d (detectors st) ->
     ((exists e, In e (fleet_status st) /\ st_id e = id d) <-> has_reading st (id d))).
  { intros d Hd. split.
    - intros [e [He Hid]]. destruct (H3 e He) as [d' [r [_ [Hr ->]]]].
      simpl in Hid. exists r. rewrite <- Hid. split; apply Hr.
    - intro Hhas. apply latest_reading_has in Hhas. destruct Hhas as [r Hr].
      exists (status_of d r). split; [|reflexivity].
      apply fleet_status_In. now exists d, r. }
  split; [exact H1|]. split; [|exact H3].
  intros d Hd Hno e He Hid. apply Hno. apply (H1 d Hd). now exists e.
Qed.

(** A registered detector without readings next to one with two readings:
    only the latter is listed, with its later reading. *)
Example fleet_status_two_detectors :
  (a <- register_detector "0a1b2c3d" t0 "N1" "hall" "he3_tube" 1.0 empty_db ;;
   b <- register_detector "4e5f6a7b" (after_seconds 1) "N2" "roof" "scintillator" 1.0 (snd a) ;;
   x <- record_reading (after_seconds 2) "4e5f6a7b" 20 (snd b) ;;
   y <- record_reading (after_seconds 3) "4e5f6a7b" 40 (snd x) ;;
   Ok (map (fun e => (st_id e, st_cps e, st_timestamp e)) (fleet_status (snd y))))
  = Ok [("4e5f6a7b", 40, after_seconds 3)].
Proof. reflexivity. Qed.

(** ** Anomaly scan *)

Lemma anomaly_step_cases (st : db) (acc : list anomaly) (d : DetectorUnit) :
  (divides_by_zero st d /\ anomaly_step st acc d = Raise ZeroDivisionError) \/
  (~ divides_by_zero st d /\ anomaly_step st acc d = Ok (acc ++ anomalies_of st d)).
Proof.
  unfold anomaly_step, anomalies_of, divides_by_zero, exceeds_baseline.
  destruct (latest_reading (id d) st) as [r|] eqn:El.
  - destruct (Py.gt (cps r) (baseline_cps d * 3)) eqn:Eg.
    + apply gt_true_iff in Eg.
      destruct (truediv_cases (cps r) (baseline_cps d)) as [[Hz Ht]|[Hz Ht]];
        rewrite Ht; simpl.
      * left. split; [|reflexivity]. now exists r.
      * right. split; [|reflexivity]. intros [r' [_ Hz']]. contradiction.
    + apply gt_false_iff in Eg. right. split; [|now rewrite app_nil_r].
      intros [r' [[Hr' Hlt] _]]. injection Hr' as <-.
      exact (Qlt_not_le _ _ Hlt Eg).
  - right. split; [|now rewrite app_nil_r].
    intros [r' [[Hr' _] _]]. discriminate Hr'.
Qed.

Lemma anomalies_of_In (st : db) (d : DetectorUnit) (a : anomaly) :
  In a (anomalies_of st d) <-> exists r, exceeds_baseline st d r /\ a = anomaly_of d r.
Proof.
  unfold anomalies_of, exceeds_baseline.
  destruct (latest_reading (id d) st) as [r|].
  - destruct (Py.gt (cps r) (baseline_cps d * 3)) eqn:Eg.
    + apply gt_true_iff in Eg. split.
      * intros [<-|[]]. now exists r.
      * intros [r' [[Hr' _] ->]]. injection Hr' as <-. now left.
    + apply gt_false_iff in Eg. split; [intros []|].
      intros [r' [[Hr' Hlt] _]]. injection Hr' as <-.
      exact (Qlt_not_le _ _ Hlt Eg).
  - split; [intros []|]. intros [r' [[Hr' _] _]]. discriminate Hr'.
Qed.

Lemma scan_from_raise (st : db) (ds : list DetectorUnit) (e : exn) :
  scan_from st ds (Raise e) = Raise e.
Proof. induction ds as [|d ds IH]; simpl; [reflexivity | exact IH]. Qed.

Lemma scan_from_cases (st : db) (ds : list DetectorUnit) (acc : list anomaly) :
  ((exists d, In d ds /\ divides_by_zero st d) /\
   scan_from st ds (Ok acc) = Raise ZeroDivisionError) \/
  ((forall d, In d ds -> ~ divides_by_zero st d) /\
   scan_from st ds (Ok acc) = Ok (acc ++ flat_map (anomalies_of st) ds)).
Proof.
  revert acc. induction ds as [|d ds IH]; intro acc; simpl.
  - right. split; [intros d []|now rewrite app_nil_r].
  - destruct (anomaly_step_cases st acc d) as [[Hz Hs]|[Hz Hs]];
      unfold scan_from; simpl; rewrite Hs.
    + left. split; [exists d; split; [now left | exact Hz]|].
      apply scan_from_raise.
    + destruct (IH (acc ++ anomalies_of st d)) as [[[d' [Hd' Hz']] Hr]|[Hno Hr]].
      * left. split; [exists d'; split; [now right | exact Hz']|exact Hr].
      * right. split.
        -- intros d' [<-|Hd']; [exact Hz | now apply Hno].
        -- unfold scan_from in Hr. rewrite Hr. now rewrite <- app_assoc.
Qed.

(** [anomaly_scan] raises exactly when some detector whose latest reading
    is above three times its baseline has baseline zero, and then it raises
    [ZeroDivisionError]. *)
Lemma anomaly_scan_raises_iff (st : db) :
  anomaly_scan st = Raise ZeroDivisionError <->
  exists d, In d (detectors st) /\ divides_by_zero st d.
Proof.
  change (anomaly_scan st) with (scan_from st (detectors st) (Ok [])).
  destruct (scan_from_cases st (detectors st) []) as [[Hz Hr]|[Hno Hr]];
    rewrite Hr; split; trivial.
  - discriminate.
  - intros [d [Hd Hz]]. exfalso. exact (Hno d Hd Hz).
Qed.


(** Where no such detector exists, [anomaly_scan] returns, and its result
    lists a detector exactly when the detector's latest reading is strictly
    above three times its baseline, with multiplier
    [round(current / baseline, 2)]. *)
Lemma anomaly_scan_entries (st : db) :
  (forall d, In d (detectors st) -> ~ divides_by_zero st d) ->
  exists l, anomaly_scan st = Ok l /\
    forall a, In a l <->
      exists d r, In d (detectors st) /\ exceeds_baseline st d r /\ a = anomaly_of d r.
Proof.
  intro Hno.
  change (anomaly_scan st) with (scan_from st (detectors st) (Ok [])).
  destruct (scan_from_cases st (detectors st) []) as [[[d [Hd Hz]] _]|[_ Hr]].
  - exfalso. exact (Hno d Hd Hz).
  - rewrite Hr. eexists. split; [reflexivity|]. intro a. simpl.
    rewrite in_flat_map. split.
    + intros [d [Hd Ha]]. apply anomalies_of_In in Ha.
      destruct Ha as [r [Hr' ->]]. now exists d, r.
    + intros [d [r [Hd [Hr' ->]]]]. exists d. split; [exact Hd|].
      apply anomalies_of_In. now exists r.
Qed.

(** C1, the defect: whenever a detector has baseline 0 and a latest reading
    with a positive count rate (which is then above three times the
    baseline), [anomaly_scan] raises [ZeroDivisionError]: the division that
    computes the multiplier is not guarded. *)
Theorem anomaly_scan_zero_baseline_raises
    (st : db) (d : DetectorUnit) (r : NeutronReading) :
  In d (detectors st) ->
  baseline_cps d == 0 ->
  latest_reading (id d) st = Some r ->
  0 < cps r ->
  anomaly_scan st = Raise ZeroDivisionError.
Proof.
  intros Hd Hb Hr Hc. apply anomaly_scan_raises_iff.
  exists d. split; [exact Hd|]. exists r. split; [|exact Hb].
  split; [exact Hr|]. rewrite Hb. exact Hc.
Qed.

Lemma anomaly_scan_zero_baseline_raises_witness :
  In hall_unit (detectors one_positive_reading) /\
  baseline_cps hall_unit == 0 /\
  latest_reading (id hall_unit) one_positive_reading = Some positive_reading /\
  0 < cps positive_reading /\
  anomaly_scan one_positive_reading = Raise ZeroDivisionError.
Proof.
  split; [now left|]. split; [reflexivity|]. split; [reflexivity|].
  split; [reflexivity|].
  apply (anomaly_scan_zero_baseline_raises one_positive_reading hall_unit
           positive_reading);
    [now left | reflexivity | reflexivity | reflexivity].
Defined.

(** That store is what a registration and one reading produce. *)
Example one_positive_reading_by_calls :
  (a <- register_detector "0a1b2c3d" t0 "N1" "hall" "he3_tube" 1.0 empty_db ;;
   x <- record_reading (after_seconds 5) "0a1b2c3d" 1.0 (snd a) ;;
   Ok (snd x))
  = Ok one_positive_reading.
Proof. reflexivity. Qed.

(** C5, the defect: detector N1 has baseline 10 after a calibration and a
    latest reading of 50 cps, above three times the baseline, yet
    [anomaly_scan] returns no entry for it: detector N2, registered later
    with baseline 0.0 and a reading of 1 cps, makes the whole call raise. *)
Theorem anomaly_scan_loses_entries_on_zero_baseline :
  exists st d r,
    (a <- register_detector "0a1b2c3d" t0 "N1" "hall" "he3_tube" 1.0 empty_db ;;
     x <- record_reading (after_seconds 5) "0a1b2c3d" 10 (snd a) ;;
     c <- calibrate (after_seconds 10) (after_seconds 11) "0a1b2c3d" (snd x) ;;
     y <- record_reading (after_seconds 15) "0a1b2c3d" 50 (snd c) ;;
     b <- register_detector "4e5f6a7b" (after_seconds 20) "N2" "roof" "he3_tube" 1.0
            (snd y) ;;
     z <- record_reading (after_seconds 25) "4e5f6a7b" 1 (snd b) ;;
     Ok (snd z)) = Ok st /\
    In d (detectors st) /\ id d = "0a1b2c3d" /\ baseline_cps d == 10 /\
    has_reading st (id d) /\
    latest_reading (id d) st = Some r /\ cps r == 50 /\
    baseline_cps d * 3 < cps r /\
    anomaly_scan st = Raise ZeroDivisionError.
Proof.
  do 3 eexists. split; [vm_compute; reflexivity|].
  split; [now left|]. split; [reflexivity|]. split; [reflexivity|].
  split; [eexists; split; [now left | reflexivity]|].
  split; [vm_compute; reflexivity|]. split; [reflexivity|].
  split; reflexivity.
Qed.

(** Without detector N2 the same calls list N1 with multiplier 5. *)
Example anomaly_scan_calibrated_detector :
  (a <- register_detector "0a1b2c3d" t0 "N1" "hall" "he3_tube" 1.0 empty_db ;;
   x <- record_reading (after_seconds 5) "0a1b2c3d" 10 (snd a) ;;
   c <- calibrate (after_seconds 10) (after_seconds 11) "0a1b2c3d" (snd x) ;;
   y <- record_reading (after_seconds 15) "0a1b2c3d" 50 (snd c) ;;
   anomaly_scan (snd y))
  = Ok [ {| an_detector_id := "0a1b2c3d"; an_baseline_cps := 10;
            an_current_cps := 50; an_multiplier := 5.00;
            an_timestamp := after_seconds 15 |} ].
Proof. vm_compute. reflexivity. Qed.

(** ** Spectrum and calibration *)

Lemma window_In (did : string) (since : datetime) (st : db) (r : NeutronReading) :
  In r (window did since st) <->
  In r (readings st) /\ detector_id r = did /\ (since <= timestamp r)%Z.
Proof.
  unfold window. rewrite filter_In, andb_true_iff, String.eqb_eq, Z.leb_le. tauto.
Qed.

Lemma readings_since_perm (did : string) (since : datetime) (st : db) :
  Permutation (readings_since did since st) (window did since st).
Proof. apply sort_by_perm. Qed.

Lemma get_spectrum_eq (now : datetime) (did : string) (hours : Z) (st : db)
    (since : datetime) :
  minus_hours now hours = Ok since ->
  get_spectrum now did hours st =
    Ok (map (fun r => (timestamp r, cps r)) (readings_since did since st)).
Proof. intro H. unfold get_spectrum. now rewrite H. Qed.

Lemma length_nonzero_Q (n : nat) : ~ inject_Z (Z.of_nat (S n)) == 0.
Proof.
  unfold Qeq, inject_Z. simpl. lia.
Qed.

Lemma select_detector_updated (did : string) (f : DetectorUnit -> DetectorUnit)
    (st : db) (d : DetectorUnit) :
  (forall x, id (f x) = id x) ->
  select_detector did st = Some d ->
  select_detector did (update_detectors did f st) = Some (f d).
Proof.
  intros Hf Hd. rewrite update_detectors_select by exact Hf.
  rewrite Hd. simpl. apply select_detector_Some in Hd. destruct Hd as [_ <-].
  now rewrite String.eqb_refl.
Qed.

Lemma select_detector_other (did other : string) (f : DetectorUnit -> DetectorUnit)
    (st : db) :
  (forall x, id (f x) = id x) ->
  other <> did ->
  select_detector other (update_detectors did f st) = select_detector other st.
Proof.
  intros Hf Hne. rewrite update_detectors_select by exact Hf.
  destruct (select_detector other st) as [d|] eqn:E; [|reflexivity].
  simpl. apply select_detector_Some in E. destruct E as [_ E].
  rewrite E. apply String.eqb_neq in Hne. now rewrite Hne.
Qed.

(** C6: for a registered detector whose 24-hour window can be computed,
    [calibrate] returns 0.0 and leaves the store as it was (hence baseline
    and last calibration too) when no reading of the detector lies in the
    window; otherwise it returns the arithmetic mean of the count rates in
    the window and stores that value as the baseline and the clock read as
    the last calibration, in the row of that detector only. *)
Theorem calibrate_resets_baseline_to_window_mean
    (st : db) (did : string) (d : DetectorUnit) (now_spectrum now since : datetime) :
  select_detector did st = Some d ->
  minus_hours now_spectrum 24 = Ok since ->
  (window did since st = [] ->
     calibrate now_spectrum now did st = Ok (0.0, st)) /\
  (window did since st <> [] ->
     exists avg st',
       calibrate now_spectrum now did st = Ok (avg, st') /\
       avg == arithmetic_mean (map cps (window did since st)) /\
       select_detector did st' = Some (calibrated d avg now) /\
       readings st' = readings st /\
       forall other, other <> did ->
                     select_detector other st' = select_detector other st).
Proof.
  intros Hd Hsince. unfold calibrate.
  rewrite (get_spectrum_eq _ _ _ _ _ Hsince). simpl.
  pose proof (readings_since_perm did since st) as Hperm.
  split.
  - intro Hw. rewrite Hw in Hperm. apply Permutation_sym, Permutation_nil in Hperm.
    now rewrite Hperm.
  - intro Hw.
    destruct (readings_since did since st) as [|r0 rs] eqn:Ers.
    { exfalso. apply Hw. now apply Permutation_nil. }
    cbn [map List.length].
    rewrite (truediv_nonzero _ _ (length_nonzero_Q _)). cbn [Py.bind].
    do 2 eexists. split; [reflexivity|]. split; [|split; [|split]].
    + unfold arithmetic_mean.
      assert (Hlen : List.length (map cps (window did since st))
                     = S (List.length (map (fun r => (timestamp r, cps r)) rs))).
      { rewrite !length_map. rewrite <- (Permutation_length Hperm). reflexivity. }
      rewrite Hlen.
      apply Qmult_comp; [|reflexivity].
      change (Py.sum (map snd (map (fun r => (timestamp r, cps r)) (r0 :: rs)))
              == fold_right Qplus 0 (map cps (window did since st))).
      rewrite map_map. simpl snd.
      rewrite sum_fold_right. apply fold_right_Qplus_perm.
      change (Permutation (map cps (r0 :: rs)) (map cps (window did since st))).
      now apply Permutation_map.
    + match goal with
      | |- select_detector _ (update_detectors _ ?f _) = _ =>
          exact (select_detector_updated did f st d (fun _ => eq_refl) Hd)
      end.
    + reflexivity.
    + intros other Hne. now apply select_detector_other.
Qed.

Lemma calibrate_resets_baseline_to_window_mean_witness :
  select_detector "0a1b2c3d" hall_readings = Some hall_unit /\
  minus_hours (after_seconds 60) 24 = Ok (after_seconds (60 - 86400)) /\
  (window "0a1b2c3d" (after_seconds (60 - 86400)) hall_readings = [] ->
     calibrate (after_seconds 60) (after_seconds 61) "0a1b2c3d" hall_readings
       = Ok (0.0, hall_readings)) /\
  (window "0a1b2c3d" (after_seconds (60 - 86400)) hall_readings <> [] ->
     exists avg st',
       calibrate (after_seconds 60) (after_seconds 61) "0a1b2c3d" hall_readings
         = Ok (avg, st') /\
       avg == arithmetic_mean
                (map cps (window "0a1b2c3d" (after_seconds (60 - 86400)) hall_readings)) /\
       select_detector "0a1b2c3d" st'
         = Some (calibrated hall_unit avg (after_seconds 61)) /\
       readings st' = readings hall_readings /\
       forall other, other <> "0a1b2c3d" ->
                     select_detector other st' = select_detector other hall_readings).
Proof.
  split; [reflexivity|]. split; [reflexivity|].
  apply (calibrate_resets_baseline_to_window_mean hall_readings "0a1b2c3d" hall_unit
           (after_seconds 60) (after_seconds 61) (after_seconds (60 - 86400)));
    reflexivity.
Defined.

(** Readings of 10 and 20 cps calibrate the baseline to 15; two days later
    the window is empty and the call returns 0.0 without touching the store. *)
Example calibrate_two_readings :
  exists avg st',
    calibrate (after_seconds 60) (after_seconds 61) "0a1b2c3d" hall_readings
      = Ok (avg, st') /\
    avg == 15 /\
    map (fun d => (Qred (baseline_cps d), last_calibration d)) (detectors st')
      = [(15, after_seconds 61)].
Proof. do 2 eexists. split; [reflexivity|]. split; reflexivity. Qed.

Example calibrate_empty_window :
  calibrate (after_seconds 172800) (after_seconds 172801) "0a1b2c3d" hall_readings
    = Ok (0.0, hall_readings).
Proof. reflexivity. Qed.

Lemma occurrences_perm (ts : datetime) (c : Q) (l l' : list (datetime * Q)) :
  Permutation l l' -> occurrences ts c l = occurrences ts c l'.
Proof.
  intro H. unfold occurrences. induction H; simpl.
  - reflexivity.
  - destruct (_ && _); simpl; now rewrite IHPermutation.
  - destruct (_ && _); destruct (_ && _); reflexivity.
  - congruence.
Qed.

Lemma occurrences_zero (ts : datetime) (c : Q) (l : list (datetime * Q)) :
  (forall p, In p l -> fst p = ts -> ~ snd p == c) -> occurrences ts c l = 0%nat.
Proof.
  unfold occurrences. induction l as [|p l IH]; intro H; simpl; [reflexivity|].
  destruct (_ && _) eqn:E.
  - apply andb_true_iff in E. destruct E as [E1 E2].
    apply Z.eqb_eq in E1. apply Qeq_bool_eq in E2.
    exfalso. apply (H p); [now left | exact E1 | exact E2].
  - apply IH. intros q Hq. apply H. now right.
Qed.

Lemma StronglySorted_map {A B : Type} (f : A -> B) (R : B -> B -> Prop) (l : list A) :
  StronglySorted (fun a b => R (f a) (f b)) l -> StronglySorted R (map f l).
Proof.
  induction 1 as [|a l Hs IH Hall]; simpl; constructor; trivial.
  apply Forall_forall. intros b Hb. apply in_map_iff in Hb.
  destruct Hb as [a' [<- Ha']]. rewrite Forall_forall in Hall. now apply Hall.
Qed.

Lemma window_insert (did : string) (since : datetime) (st : db) (r : NeutronReading) :
  detector_id r = did -> (since <= timestamp r)%Z ->
  window did since (insert_reading r st) = window did since st ++ [r].
Proof.
  intros Hid Hts. unfold window, insert_reading. simpl.
  rewrite filter_app. simpl.
  rewrite Hid, String.eqb_refl. apply Z.leb_le in Hts. now rewrite Hts.
Qed.

(** The result of [get_spectrum], whenever the window can be computed:
    the (timestamp, cps) pairs of the selected rows, ascending in time. *)
Lemma get_spectrum_spec (now : datetime) (did : string) (hours : Z) (st : db)
    (since : datetime) :
  minus_hours now hours = Ok since ->
  exists l,
    get_spectrum now did hours st = Ok l /\
    Permutation l (map (fun r => (timestamp r, cps r)) (window did since st)) /\
    StronglySorted (fun p q => (fst p <= fst q)%Z) l.
Proof.
  intro Hs. rewrite (get_spectrum_eq _ _ _ _ _ Hs). eexists.
  split; [reflexivity|]. split.
  - apply Permutation_map, readings_since_perm.
  - apply StronglySorted_map. simpl.
    pose proof (sort_by_sorted timestamp_asc timestamp_asc_total timestamp_asc_trans
                  (window did since st)) as H.
    unfold readings_since.
    eapply StronglySorted_ind with (P := StronglySorted _); [| |exact H].
    + constructor.
    + intros a l _ IH Hall. constructor; [exact IH|].
      eapply Forall_impl; [|exact Hall]. intros b Hb. now apply Z.leb_le.
Qed.

(** C8, as the program behaves: after [record_reading] on a registered
    detector, a [get_spectrum] whose window reaches back to the reading's
    timestamp returns the pair (timestamp, cps) of that reading once more
    than it did before the call; that is exactly once when the detector had
    no reading with that timestamp and that count rate.  The returned
    sequence is ascending in time and holds the readings of the detector
    that are in the window, and only those. *)
Theorem record_reading_then_get_spectrum
    (st : db) (did : string) (d : DetectorUnit) (now : datetime) (c : Q)
    (now' : datetime) (hours : Z) (since : datetime) :
  select_detector did st = Some d ->
  minus_hours now' hours = Ok since ->
  (since <= now)%Z ->
  exists r st' before after,
    record_reading now did c st = Ok (r, st') /\
    timestamp r = now /\ cps r = c /\
    get_spectrum now' did hours st = Ok before /\
    get_spectrum now' did hours st' = Ok after /\
    occurrences now c after = S (occurrences now c before) /\
    ((forall r0, In r0 (readings st) -> detector_id r0 = did ->
                 timestamp r0 = now -> ~ cps r0 == c) ->
     occurrences now c after = 1%nat) /\
    StronglySorted (fun p q => (fst p <= fst q)%Z) after /\
    Permutation after (map (fun r0 => (timestamp r0, cps r0)) (window did since st')) /\
    forall p, In p after -> (since <= fst p)%Z.
Proof.
  intros Hd Hsince Hcover.
  unfold record_reading. rewrite Hd. cbv zeta.
  set (r := {| detector_id := did; cps := c;
               dose_usv_h := c * dict_get CPS_TO_DOSE (type d) 0.005;
               timestamp := now;
               alert_triggered := Py.gt c (alert_threshold d) |}).
  destruct (get_spectrum_spec now' did hours st since Hsince)
    as [before [Hb [Hpb _]]].
  destruct (get_spectrum_spec now' did hours (insert_reading r st) since Hsince)
    as [after [Ha [Hpa Hsa]]].
  exists r, (insert_reading r st), before, after.
  assert (Hperm : Permutation after ((now, c) :: before)).
  { rewrite Hpa, Hpb.
    rewrite (window_insert did since st r eq_refl Hcover), map_app. simpl.
    symmetry. apply Permutation_cons_append. }
  assert (Hocc : occurrences now c after = S (occurrences now c before)).
  { rewrite (occurrences_perm _ _ _ _ Hperm). unfold occurrences. simpl.
    now rewrite Z.eqb_refl, Qeq_bool_refl. }
  repeat split; trivial.
  - intro Hfresh. rewrite Hocc. f_equal. apply occurrences_zero.
    intros p Hp Hts. apply (Permutation_in _ Hpb), in_map_iff in Hp.
    destruct Hp as [r0 [<- Hr0]]. apply window_In in Hr0.
    destruct Hr0 as [Hin [Hid _]]. now apply Hfresh.
  - intros p Hp. apply (Permutation_in _ Hpa), in_map_iff in Hp.
    destruct Hp as [r0 [<- Hr0]]. apply window_In in Hr0. simpl. tauto.
Qed.

Lemma record_reading_then_get_spectrum_witness :
  select_detector "0a1b2c3d" hall_readings = Some hall_unit /\
  minus_hours (after_seconds 60) 24 = Ok (after_seconds (60 - 86400)) /\
  (after_seconds (60 - 86400) <= after_seconds 30)%Z /\
  exists r st' before after,
    record_reading (after_seconds 30) "0a1b2c3d" 12.5 hall_readings = Ok (r, st') /\
    timestamp r = after_seconds 30 /\ cps r = 12.5 /\
    get_spectrum (after_seconds 60) "0a1b2c3d" 24 hall_readings = Ok before /\
    get_spectrum (after_seconds 60) "0a1b2c3d" 24 st' = Ok after /\
    occurrences (after_seconds 30) 12.5 after
      = S (occurrences (after_seconds 30) 12.5 before) /\
    ((forall r0, In r0 (readings hall_readings) -> detector_id r0 = "0a1b2c3d" ->
                 timestamp r0 = after_seconds 30 -> ~ cps r0 == 12.5) ->
     occurrences (after_seconds 30) 12.5 after = 1%nat) /\
    StronglySorted (fun p q => (fst p <= fst q)%Z) after /\
    Permutation after
      (map (fun r0 => (timestamp r0, cps r0))
           (window "0a1b2c3d" (after_seconds (60 - 86400)) st')) /\
    forall p, In p after -> (after_seconds (60 - 86400) <= fst p)%Z.
Proof.
  split; [reflexivity|]. split; [reflexivity|].
  split; [vm_compute; discriminate|].
  apply (record_reading_then_get_spectrum hall_readings "0a1b2c3d" hall_unit
           (after_seconds 30) 12.5 (after_seconds 60) 24 (after_seconds (60 - 86400))).
  - reflexivity.
  - reflexivity.
  - vm_compute. discriminate.
Defined.

(** C8 as stated fails: two calls of [record_reading] that read the same
    clock value store the same count rate twice at one timestamp, and the
    spectrum returns the pair twice. *)
Lemma get_spectrum_repeats_equal_readings :
  select_detector "0a1b2c3d" hall_store = Some hall_unit /\
  (x <- record_reading (after_seconds 5) "0a1b2c3d" 50 hall_store ;;
   y <- record_reading (after_seconds 5) "0a1b2c3d" 50 (snd x) ;;
   get_spectrum (after_seconds 6) "0a1b2c3d" 24 (snd y))
  = Ok [(after_seconds 5, 50); (after_seconds 5, 50)] /\
  occurrences (after_seconds 5) 50 [(after_seconds 5, 50); (after_seconds 5, 50)]
    <> 1%nat.
Proof.
  split; [reflexivity|]. split; [reflexivity|]. vm_compute. discriminate.
Qed.

(** * Further properties *)

(** ** What a call can do to the store *)

Lemma calibrate_store (now_spectrum now : datetime) (did : string) (st : db) :
  store_after st (calibrate now_spectrum now did st) = st \/
  exists avg, store_after st (calibrate now_spectrum now did st)
              = update_detectors did (fun d => calibrated d avg now) st.
Proof.
  unfold calibrate, get_spectrum.
  destruct (minus_hours now_spectrum 24) as [since|e]; [|now left].
  cbn [Py.bind].
  destruct (map _ (readings_since did since st)) as [|p l]; [now left|].
  destruct (truediv_cases (Py.sum (map snd (p :: l)))
              (inject_Z (Z.of_nat (List.length (p :: l))))) as [[_ H]|[_ H]];
    rewrite H; cbn [Py.bind store_after]; [now left|].
  right. eexists. reflexivity.
Qed.

Lemma run_call_effect (c : call) (st : db) : effect st (run_call c st).
Proof.
  destruct c as [u now n l t s|now did c|did a|now_s now did]; simpl.
  - unfold register_detector.
    destruct (select_detector u st) eqn:E; simpl; [constructor|].
    now apply effect_register.
  - unfold record_reading.
    destruct (select_detector did st) as [d|] eqn:E; simpl; [|constructor].
    now apply effect_record.
  - now apply effect_update.
  - destruct (calibrate_store now_s now did st) as [H|[avg H]]; rewrite H.
    + constructor.
    + now apply effect_update.
Qed.

Lemma update_detectors_identity (did : string) (f : DetectorUnit -> DetectorUnit)
    (st : db) :
  (forall d, identity_of (f d) = identity_of d) ->
  map identity_of (detectors (update_detectors did f st))
  = map identity_of (detectors st).
Proof.
  intro Hf. unfold update_detectors. simpl. rewrite map_map.
  apply map_ext. intro d. now destruct (String.eqb (id d) did).
Qed.

Lemma identity_of_id (ds : list DetectorUnit) :
  map id ds = map (fun p => fst (fst (fst (fst (fst p))))) (map identity_of ds).
Proof. rewrite map_map. reflexivity. Qed.

Lemma identity_of_fields (d d' : DetectorUnit) :
  identity_of d' = identity_of d ->
  id d' = id d /\ type d' = type d /\ status d' = status d.
Proof. unfold identity_of. intro H. injection H as H1 _ _ H4 _ H6. auto. Qed.

Lemma effect_identity (st st' : db) :
  effect st st' ->
  exists added, map identity_of (detectors st')
                = map identity_of (detectors st) ++ added.
Proof.
  intros [|u now n l t s Hu|now did c d Hd|did f Hf]; simpl.
  - exists []. now rewrite app_nil_r.
  - eexists. now rewrite map_app.
  - exists []. now rewrite app_nil_r.
  - exists []. rewrite app_nil_r. now apply (update_detectors_identity did f st).
Qed.

Lemma effect_readings (st st' : db) :
  effect st st' -> exists added, readings st' = readings st ++ added.
Proof.
  intros [|u now n l t s Hu|now did c d Hd|did f Hf]; simpl.
  - exists []. now rewrite app_nil_r.
  - exists []. now rewrite app_nil_r.
  - eexists. reflexivity.
  - exists []. now rewrite app_nil_r.
Qed.

Lemma In_updated (did : string) (f : DetectorUnit -> DetectorUnit) (st : db)
    (d : DetectorUnit) :
  In d (detectors st) ->
  In (if String.eqb (id d) did then f d else d) (detectors (update_detectors did f st)).
Proof.
  intro H. unfold update_detectors. simpl.
  apply (in_map (fun d => if String.eqb (id d) did then f d else d)) in H. exact H.
Qed.

Lemma In_updated_inv (did : string) (f : DetectorUnit -> DetectorUnit) (st : db)
    (d' : DetectorUnit) :
  (forall d, identity_of (f d) = identity_of d) ->
  In d' (detectors (update_detectors did f st)) ->
  exists d, In d (detectors st) /\ identity_of d' = identity_of d.
Proof.
  intros Hf H. unfold update_detectors in H. simpl in H.
  apply in_map_iff in H. destruct H as [d [<- Hd]].
  exists d. split; [exact Hd|]. now destruct (String.eqb (id d) did).
Qed.

Lemma effect_unique_ids (st st' : db) :
  effect st st' -> unique_ids st -> unique_ids st'.
Proof.
  unfold unique_ids.
  intros [|u now n l t s Hu|now did c d Hd|did f Hf] H; simpl; trivial.
  - rewrite map_app. simpl.
    apply NoDup_app; [exact H | repeat constructor; intros [] | ].
    intros x Hx [<-|[]]. apply in_map_iff in Hx. destruct Hx as [d [Hid Hd]].
    rewrite select_detector_None in Hu. exact (Hu d Hd Hid).
  - rewrite identity_of_id.
    change (map identity_of _) with
      (map identity_of (detectors (update_detectors did f st))).
    rewrite (update_detectors_identity did f st Hf), <- identity_of_id. exact H.
Qed.

Lemma effect_doses (st st' : db) :
  effect st st' -> doses_follow_table st -> doses_follow_table st'.
Proof.
  unfold doses_follow_table.
  intros [|u now n l t s Hu|now did c d Hd|did f Hf] H r Hr; simpl in *.
  - now apply H.
  - destruct (H r Hr) as [d [Hd Hrest]]. exists d. split; [|exact Hrest].
    apply in_or_app. now left.
  - apply in_app_or in Hr. destruct Hr as [Hr|[<-|[]]]; [now apply H|].
    apply select_detector_Some in Hd. destruct Hd as [Hin Hid].
    exists d. simpl. auto.
  - destruct (H r Hr) as [d [Hd [Hid Hdose]]].
    exists (if String.eqb (id d) did then f d else d).
    split; [now apply In_updated|].
    destruct (String.eqb (id d) did); [|now split].
    destruct (identity_of_fields _ _ (Hf d)) as [H1 [H2 _]].
    rewrite H1, H2. now split.
Qed.

Lemma effect_online (st st' : db) :
  effect st st' -> all_online st -> all_online st'.
Proof.
  unfold all_online.
  intros [|u now n l t s Hu|now did c d Hd|did f Hf] H d' Hd'; simpl in *.
  - now apply H.
  - apply in_app_or in Hd'. destruct Hd' as [Hd'|[<-|[]]]; [now apply H|reflexivity].
  - now apply H.
  - destruct (In_updated_inv did f st d' Hf Hd') as [d0 [Hd0 Hi]].
    destruct (identity_of_fields _ _ Hi) as [_ [_ ->]]. now apply H.
Qed.

Lemma run_calls_ind (P : db -> Prop) :
  (forall st st', effect st st' -> P st -> P st') ->
  forall cs st, P st -> P (run_calls cs st).
Proof.
  intros Hstep cs. induction cs as [|c cs IH]; intros st H; simpl; [exact H|].
  apply IH. apply (Hstep st); [apply run_call_effect | exact H].
Qed.

(** ** Invariants of the store *)

Lemma hall_readings_doses : doses_follow_table hall_readings.
Proof.
  intros r [<-|[<-|[]]]; exists hall_unit; simpl; auto.
Defined.

Lemma hall_unique : unique_ids hall_readings.
Proof.
  unfold unique_ids. simpl. constructor; [intros []|constructor].
Defined.

(** X1: identifiers stay unique.  From a store in which no two detectors
    share an identifier, every sequence of registrations, readings,
    threshold changes and calibrations leads to such a store again; a
    registration under a stored identifier is refused by the primary key
    and adds nothing. *)
Theorem calls_keep_identifiers_unique (cs : list call) (st : db) :
  unique_ids st -> unique_ids (run_calls cs st).
Proof. apply run_calls_ind. exact effect_unique_ids. Qed.

Lemma calls_keep_identifiers_unique_witness :
  unique_ids hall_readings /\ unique_ids (run_calls sample_calls hall_readings).
Proof.
  split; [exact hall_unique|].
  apply (calls_keep_identifiers_unique sample_calls hall_readings). exact hall_unique.
Defined.

(** X2: readings stay attached and converted.  From a store in which every
    reading belongs to a stored detector and has
    [dose_usv_h = cps * factor(type of that detector)], every sequence of
    calls leads to such a store again: no call stores a reading for an
    unknown detector, and none changes a detector's type or a stored dose. *)
Theorem calls_keep_doses_on_table (cs : list call) (st : db) :
  doses_follow_table st -> doses_follow_table (run_calls cs st).
Proof. apply run_calls_ind. exact effect_doses. Qed.

Lemma calls_keep_doses_on_table_witness :
  doses_follow_table hall_readings /\
  doses_follow_table (run_calls sample_calls hall_readings).
Proof.
  split; [exact hall_readings_doses|].
  apply (calls_keep_doses_on_table sample_calls hall_readings).
  exact hall_readings_doses.
Defined.

(** X3: the status column is inert.  In every store that calls on a new
    database produce, every detector has status "online": registration
    writes it and no other call rewrites it. *)
Theorem reachable_detectors_online (cs : list call) :
  all_online (run_calls cs empty_db).
Proof.
  apply run_calls_ind; [exact effect_online|]. intros d [].
Qed.

(** X4: detectors are never removed or renamed.  After any sequence of
    calls the detector rows that were stored are still there, in the same
    order and with the same identifier, name, location, type, sensitivity
    and status; new rows come after them. *)
Theorem calls_keep_detector_identity (cs : list call) (st : db) :
  exists added,
    map identity_of (detectors (run_calls cs st))
    = map identity_of (detectors st) ++ added.
Proof.
  revert st. induction cs as [|c cs IH]; intro st.
  - exists []. simpl. now rewrite app_nil_r.
  - change (run_calls (c :: cs) st) with (run_calls cs (run_call c st)).
    destruct (IH (run_call c st)) as [l2 H2].
    destruct (effect_identity st _ (run_call_effect c st)) as [l1 H1].
    exists (l1 ++ l2). now rewrite H2, H1, app_assoc.
Qed.

(** X5: readings are append-only.  After any sequence of calls the readings
    that were stored are still there, unchanged (count rate, dose,
    timestamp and alert flag) and in the same order; new readings come
    after them. *)
Theorem calls_only_append_readings (cs : list call) (st : db) :
  exists added, readings (run_calls cs st) = readings st ++ added.
Proof.
  revert st. induction cs as [|c cs IH]; intro st.
  - exists []. simpl. now rewrite app_nil_r.
  - change (run_calls (c :: cs) st) with (run_calls cs (run_call c st)).
    destruct (IH (run_call c st)) as [l2 H2].
    destruct (effect_readings st _ (run_call_effect c st)) as [l1 H1].
    exists (l1 ++ l2). now rewrite H2, H1, app_assoc.
Qed.

Example sample_calls_run :
  map (fun d => (id d, type d, alert_threshold d, Qred (baseline_cps d)))
      (detectors (run_calls sample_calls hall_readings))
  = [("0a1b2c3d", "he3_tube", 10, 0); ("4e5f6a7b", "geiger", 100.0, 20)] /\
  map (fun r => (detector_id r, cps r, Qred (dose_usv_h r)))
      (readings (run_calls sample_calls hall_readings))
  = [("0a1b2c3d", 10, 8 # 125); ("0a1b2c3d", 20, 16 # 125); ("4e5f6a7b", 20, 1 # 10)].
Proof. split; vm_compute; reflexivity. Qed.

(** ** Unknown detectors and the dose query *)

Lemma unknown_has_no_readings (st : db) (did : string) :
  doses_follow_table st -> select_detector did st = None -> ~ has_reading st did.
Proof.
  intros Hinv Hnone [r [Hr Hid]].
  destruct (Hinv r Hr) as [d [Hd [Hdid _]]].
  rewrite select_detector_None in Hnone. apply (Hnone d Hd). congruence.
Qed.

Lemma filter_nil_iff {A : Type} (p : A -> bool) (l : list A) :
  filter p l = [] <-> forall x, In x l -> p x = false.
Proof.
  induction l as [|a l IH]; simpl.
  - split; [intros _ x []|reflexivity].
  - destruct (p a) eqn:E; split.
    + discriminate.
    + intro H. specialize (H a (or_introl eq_refl)). congruence.
    + intros H x [<-|Hx]; [exact E | now apply IH].
    + intro H. apply IH. intros x Hx. apply H. now right.
Qed.

Lemma no_reading_window (st : db) (did : string) (since : datetime) :
  ~ has_reading st did -> window did since st = [].
Proof.
  intro H. apply filter_nil_iff. intros r Hr.
  destruct (String.eqb (detector_id r) did) eqn:E; [|reflexivity].
  exfalso. apply H. exists r. split; [exact Hr|]. now apply String.eqb_eq.
Qed.

Lemma no_reading_readings_of (st : db) (did : string) :
  ~ has_reading st did -> readings_of did st = [].
Proof.
  intro H. unfold readings_of.
  replace (filter _ (readings st)) with (@nil NeutronReading); [reflexivity|].
  symmetry. apply filter_nil_iff. intros r Hr.
  destruct (String.eqb (detector_id r) did) eqn:E; [|reflexivity].
  exfalso. apply H. exists r. split; [exact Hr|]. now apply String.eqb_eq.
Qed.

(** X6: an identifier that was never registered.  In a store whose readings
    all belong to stored detectors, the read side does not fail for an
    unknown identifier: [get_spectrum] returns the empty list, [get_dose]
    returns 0.0, [calibrate] returns 0.0 and leaves the store as it was,
    and [export_ndf] returns [False] and writes no row. *)
Theorem unknown_detector_reads_empty
    (st : db) (did path : string) (now now' : datetime) (hours : Z)
    (since since24 : datetime) :
  doses_follow_table st ->
  select_detector did st = None ->
  minus_hours now hours = Ok since ->
  minus_hours now 24 = Ok since24 ->
  get_spectrum now did hours st = Ok [] /\
  get_dose now did hours st = Ok 0.0 /\
  calibrate now now' did st = Ok (0.0, st) /\
  export_ndf did path st = (false, []).
Proof.
  intros Hinv Hnone Hs Hs24.
  pose proof (unknown_has_no_readings st did Hinv Hnone) as Hno.
  repeat split.
  - rewrite (get_spectrum_eq _ _ _ _ _ Hs). unfold readings_since.
    now rewrite (no_reading_window st did since Hno).
  - unfold get_dose, sum_dose_since. rewrite Hs. cbn [Py.bind].
    now rewrite (no_reading_window st did since Hno).
  - unfold calibrate. rewrite (get_spectrum_eq _ _ _ _ _ Hs24).
    unfold readings_since. now rewrite (no_reading_window st did since24 Hno).
  - unfold export_ndf. now rewrite Hnone.
Qed.

Lemma unknown_detector_reads_empty_witness :
  doses_follow_table hall_readings /\
  select_detector "ffffffff" hall_readings = None /\
  minus_hours (after_seconds 60) 1 = Ok (after_seconds (60 - 3600)) /\
  minus_hours (after_seconds 60) 24 = Ok (after_seconds (60 - 86400)) /\
  get_spectrum (after_seconds 60) "ffffffff" 1 hall_readings = Ok [] /\
  get_dose (after_seconds 60) "ffffffff" 1 hall_readings = Ok 0.0 /\
  calibrate (after_seconds 60) (after_seconds 61) "ffffffff" hall_readings
    = Ok (0.0, hall_readings) /\
  export_ndf "ffffffff" "/tmp/out/n.csv" hall_readings = (false, []).
Proof.
  split; [exact hall_readings_doses|]. split; [reflexivity|].
  split; [reflexivity|]. split; [reflexivity|].
  apply (unknown_detector_reads_empty hall_readings "ffffffff" "/tmp/out/n.csv"
           (after_seconds 60) (after_seconds 61) 1
           (after_seconds (60 - 3600)) (after_seconds (60 - 86400)));
    [exact hall_readings_doses | reflexivity | reflexivity | reflexivity].
Defined.

Lemma get_dose_value (now : datetime) (did : string) (hours : Z) (st : db)
    (since : datetime) :
  minus_hours now hours = Ok since ->
  exists v, get_dose now did hours st = Ok v /\
            v == fold_right Qplus 0 (map dose_usv_h (window did since st)).
Proof.
  intro Hs. unfold get_dose, sum_dose_since. rewrite Hs. cbn [Py.bind].
  destruct (window did since st) as [|r rs].
  - exists 0.0. split; reflexivity.
  - destruct (Qeq_bool (Py.sum (map dose_usv_h (r :: rs))) 0) eqn:E.
    + exists 0.0. split; [reflexivity|].
      apply Qeq_bool_eq in E. rewrite <- sum_fold_right, E. reflexivity.
    + eexists. split; [reflexivity|]. apply sum_fold_right.
Qed.





(** Readings of 10 and 20 cps on a helium-3 tube sum to 0.192. *)
Example get_dose_two_readings :
  exists v, get_dose (after_seconds 60) "0a1b2c3d" 1 hall_readings = Ok v /\ v == 0.192.
Proof. eexists. split; reflexivity. Qed.

Lemma fold_right_Qplus_app (xs ys : list Q) :
  fold_right Qplus 0 (xs ++ ys) == fold_right Qplus 0 xs + fold_right Qplus 0 ys.
Proof.
  induction xs as [|x xs IH]; simpl; [ring|]. rewrite IH. ring.
Qed.

(** X8: a reading adds its dose.  After [record_reading] on a registered
    detector, a [get_dose] whose window reaches back to the reading's
    timestamp returns the value it returned before plus the dose of the
    new reading. *)
Theorem record_reading_adds_dose
    (st : db) (did : string) (d : DetectorUnit) (now : datetime) (c : Q)
    (now' : datetime) (hours : Z) (since : datetime) :
  select_detector did st = Some d ->
  minus_hours now' hours = Ok since ->
  (since <= now)%Z ->
  exists r st' before after,
    record_reading now did c st = Ok (r, st') /\
    get_dose now' did hours st = Ok before /\
    get_dose now' did hours st' = Ok after /\
    after == before + dose_usv_h r /\
    dose_usv_h r = c * dict_get CPS_TO_DOSE (type d) 0.005.
Proof.
  intros Hd Hs Hcover. unfold record_reading. rewrite Hd. cbv zeta.
  set (r := {| detector_id := did; cps := c;
               dose_usv_h := c * dict_get CPS_TO_DOSE (type d) 0.005;
               timestamp := now;
               alert_triggered := Py.gt c (alert_threshold d) |}).
  destruct (get_dose_value now' did hours st since Hs) as [v [Hv Hsum]].
  destruct (get_dose_value now' did hours (insert_reading r st) since Hs)
    as [v' [Hv' Hsum']].
  exists r, (insert_reading r st), v, v'.
  repeat split; trivial.
  rewrite Hsum', Hsum, (window_insert did since st r eq_refl Hcover).
  rewrite map_app, fold_right_Qplus_app. simpl. ring.
Qed.

Lemma record_reading_adds_dose_witness :
  select_detector "0a1b2c3d" hall_readings = Some hall_unit /\
  minus_hours (after_seconds 60) 1 = Ok (after_seconds (60 - 3600)) /\
  (after_seconds (60 - 3600) <= after_seconds 30)%Z /\
  exists r st' before after,
    record_reading (after_seconds 30) "0a1b2c3d" 12.5 hall_readings = Ok (r, st') /\
    get_dose (after_seconds 60) "0a1b2c3d" 1 hall_readings = Ok before /\
    get_dose (after_seconds 60) "0a1b2c3d" 1 st' = Ok after /\
    after == before + dose_usv_h r /\
    dose_usv_h r = 12.5 * dict_get CPS_TO_DOSE (type hall_unit) 0.005.
Proof.
  split; [reflexivity|]. split; [reflexivity|].
  split; [vm_compute; discriminate|].
  apply (record_reading_adds_dose hall_readings "0a1b2c3d" hall_unit
           (after_seconds 30) 12.5 (after_seconds 60) 1 (after_seconds (60 - 3600)));
    [reflexivity | reflexivity | vm_compute; discriminate].
Defined.

(** ** Export *)

Section FilterSort.
Context {A : Type} (leb : A -> A -> bool) (p : A -> bool).
Hypothesis leb_trans : forall a b c, leb a b = true -> leb b c = true -> leb a c = true.

Lemma insert_sorted_first (x : A) (l : list A) :
  (forall y, In y l -> leb x y = true) -> insert_sorted leb x l = x :: l.
Proof.
  destruct l as [|y l]; simpl; [reflexivity|].
  intro H. now rewrite (H y (or_introl eq_refl)).
Qed.

Lemma filter_insert_sorted (x : A) (l : list A) :
  StronglySorted (holds leb) l ->
  filter p (insert_sorted leb x l)
  = if p x then insert_sorted leb x (filter p l) else filter p l.
Proof.
  induction 1 as [|y l Hs IH Hall]; simpl.
  - now destruct (p x).
  - rewrite Forall_forall in Hall. destruct (leb x y) eqn:E; simpl.
    + destruct (p x) eqn:Ex; [|reflexivity].
      symmetry. apply insert_sorted_first. intros z Hz.
      assert (Hz' : In z (y :: l)).
      { destruct (p y); [|right; now apply filter_In in Hz].
        destruct Hz as [<-|Hz]; [now left | right; now apply filter_In in Hz]. }
      destruct Hz' as [<-|Hz']; [exact E|].
      apply (leb_trans x y z); [exact E | now apply Hall].
    + rewrite IH. destruct (p y) eqn:Ey; destruct (p x) eqn:Ex; simpl;
        try reflexivity.
      now rewrite E.
Qed.

Hypothesis leb_total : forall a b, leb a b = true \/ leb b a = true.

Lemma filter_sort_by (l : list A) :
  filter p (sort_by leb l) = sort_by leb (filter p l).
Proof.
  induction l as [|x l IH]; simpl; [reflexivity|].
  rewrite filter_insert_sorted by (now apply sort_by_sorted).
  rewrite IH. now destruct (p x).
Qed.
End FilterSort.

Lemma filter_andb {A : Type} (p q : A -> bool) (l : list A) :
  filter (fun x => p x && q x) l = filter q (filter p l).
Proof.
  induction l as [|x l IH]; simpl; [reflexivity|].
  destruct (p x); simpl; [|exact IH].
  destruct (q x); now rewrite IH.
Qed.

Lemma readings_since_of (did : string) (since : datetime) (st : db) :
  readings_since did since st
  = filter (fun r => (since <=? timestamp r)%Z) (readings_of did st).
Proof.
  unfold readings_since, readings_of, window.
  rewrite (filter_sort_by timestamp_asc _ timestamp_asc_trans timestamp_asc_total).
  now rewrite <- filter_andb.
Qed.






(** Register, three readings out of time order by the clock, export: the
    rows come out by timestamp. *)
Example export_three_readings :
  (a <- register_detector "0a1b2c3d" t0 "N1" "hall" "he3_tube" 1.0 empty_db ;;
   x <- record_reading (after_seconds 7) "0a1b2c3d" 10 (snd a) ;;
   y <- record_reading (after_seconds 5) "0a1b2c3d" 20 (snd x) ;;
   z <- record_reading (after_seconds 6) "0a1b2c3d" 30 (snd y) ;;
   Ok (export_ndf "0a1b2c3d" "/tmp/out/n.csv" (snd z)))
  = Ok (true,
        [ [Text "Detector"; Text "Location"; Text "Type"; Text "Baseline_CPS"];
          [Text "N1"; Text "hall"; Text "he3_tube"; Real 0.0];
          [];
          [Text "Timestamp"; Text "CPS"; Text "Dose_uSv_h"];
          [Instant (after_seconds 5); Real 20; Real (20 * 0.0064)];
          [Instant (after_seconds 6); Real 30; Real (30 * 0.0064)];
          [Instant (after_seconds 7); Real 10; Real (10 * 0.0064)] ]).
Proof. reflexivity. Qed.

(** ** Fleet status, thresholds and frames *)

Lemma has_readingb_iff (st : db) (did : string) :
  has_readingb st did = true <-> has_reading st did.
Proof.
  unfold has_readingb, has_reading. rewrite existsb_exists.
  split; intros [r [Hr Hid]]; exists r; split; trivial; now apply String.eqb_eq.
Qed.

Lemma has_readingb_latest (st : db) (did : string) :
  has_readingb st did =
  match latest_reading did st with Some _ => true | None => false end.
Proof.
  destruct (latest_reading did st) as [r|] eqn:E.
  - apply has_readingb_iff, latest_reading_has. now exists r.
  - apply latest_reading_None in E.
    destruct (has_readingb st did) eqn:Eb; [|reflexivity].
    apply has_readingb_iff in Eb. contradiction.
Qed.

Lemma selected_ids_unique (keep : DetectorUnit -> bool) (ds : list DetectorUnit) :
  NoDup (map id ds) -> NoDup (map id (filter keep ds)).
Proof.
  intro Hu. induction ds as [|d ds IH]; simpl; [constructor|].
  simpl in Hu. apply NoDup_cons_iff in Hu. destruct Hu as [Hfresh Hu].
  destruct (keep d); simpl; [|now apply IH].
  apply NoDup_cons; [|now apply IH].
  intro Hin. apply Hfresh. apply in_map_iff in Hin.
  destruct Hin as [d' [Hid Hd']]. apply filter_In in Hd'.
  rewrite <- Hid. apply in_map. apply Hd'.
Qed.

(** X11: one entry per detector, in registration order.  The identifiers
    listed by [fleet_status] are those of the detector rows that have a
    reading, in the order of the rows; so there are at most as many entries
    as detectors, and with unique identifiers no detector is listed twice. *)
Theorem fleet_status_order (st : db) :
  map st_id (fleet_status st)
  = map id (filter (fun d => has_readingb st (id d)) (detectors st)) /\
  (List.length (fleet_status st) <= List.length (detectors st))%nat /\
  (unique_ids st -> NoDup (map st_id (fleet_status st))).
Proof.
  assert (H : map st_id (fleet_status st)
              = map id (filter (fun d => has_readingb st (id d)) (detectors st))).
  { rewrite fleet_status_flat_map.
    induction (detectors st) as [|d ds IH]; simpl; [reflexivity|].
    rewrite map_app, IH. unfold status_of_detector.
    rewrite has_readingb_latest. now destruct (latest_reading (id d) st). }
  split; [exact H|]. split.
  - rewrite <- (length_map st_id), H, length_map. apply filter_length_le.
  - intro Hu. rewrite H. now apply selected_ids_unique.
Qed.

Lemma latest_reading_insert_later (st : db) (did : string) (r : NeutronReading) :
  detector_id r = did ->
  (forall r0, In r0 (readings st) -> detector_id r0 = did ->
              (timestamp r0 < timestamp r)%Z) ->
  latest_reading did (insert_reading r st) = Some r.
Proof.
  intros Hid Hlater.
  destruct (latest_reading did (insert_reading r st)) as [x|] eqn:E.
  - apply latest_reading_Some in E. destruct E as [Hx [Hxid Hmax]].
    simpl in Hx, Hmax. apply in_app_or in Hx. destruct Hx as [Hx|[<-|[]]]; trivial.
    exfalso. assert (timestamp r <= timestamp x)%Z.
    { apply Hmax; [apply in_or_app; right; now left | exact Hid]. }
    specialize (Hlater x Hx Hxid). lia.
  - exfalso. apply latest_reading_None in E. apply E. exists r.
    split; [apply in_or_app; right; now left | exact Hid].
Qed.

(** X12: a later reading is the one shown.  When the clock value of
    [record_reading] is strictly later than the timestamp of every stored
    reading of the detector, the new reading becomes the detector's latest
    reading, and [fleet_status] lists the detector with the count rate,
    dose and timestamp of that reading. *)
Theorem record_reading_later_shows_in_fleet_status
    (st : db) (did : string) (d : DetectorUnit) (now : datetime) (c : Q) :
  select_detector did st = Some d ->
  (forall r0, In r0 (readings st) -> detector_id r0 = did -> (timestamp r0 < now)%Z) ->
  exists r st',
    record_reading now did c st = Ok (r, st') /\
    cps r = c /\ timestamp r = now /\
    latest_reading did st' = Some r /\
    In (status_of d r) (fleet_status st').
Proof.
  intros Hd Hlater. unfold record_reading. rewrite Hd. cbv zeta.
  do 2 eexists. split; [reflexivity|]. split; [reflexivity|].
  split; [reflexivity|].
  assert (Hl : forall r, detector_id r = did -> timestamp r = now ->
                         latest_reading did (insert_reading r st) = Some r).
  { intros r Hid Hts. apply latest_reading_insert_later; [exact Hid|].
    rewrite Hts. exact Hlater. }
  split; [now apply Hl|].
  apply fleet_status_In. apply select_detector_Some in Hd. destruct Hd as [Hin Hid].
  eexists d, _. split; [exact Hin|]. split; [|reflexivity].
  rewrite Hid. now apply Hl.
Qed.

Lemma record_reading_later_shows_in_fleet_status_witness :
  select_detector "0a1b2c3d" hall_readings = Some hall_unit /\
  (forall r0, In r0 (readings hall_readings) -> detector_id r0 = "0a1b2c3d" ->
              (timestamp r0 < after_seconds 30)%Z) /\
  exists r st',
    record_reading (after_seconds 30) "0a1b2c3d" 12.5 hall_readings = Ok (r, st') /\
    cps r = 12.5 /\ timestamp r = after_seconds 30 /\
    latest_reading "0a1b2c3d" st' = Some r /\
    In (status_of hall_unit r) (fleet_status st').
Proof.
  assert (H : forall r0, In r0 (readings hall_readings) ->
                         detector_id r0 = "0a1b2c3d" ->
                         (timestamp r0 < after_seconds 30)%Z).
  { intros r0 [<-|[<-|[]]] _; reflexivity. }
  split; [reflexivity|]. split; [exact H|].
  apply (record_reading_later_shows_in_fleet_status hall_readings "0a1b2c3d"
           hall_unit (after_seconds 30) 12.5); [reflexivity | exact H].
Defined.

(** X13: a new threshold applies to the next reading.  After
    [set_threshold] on a registered detector, the next [record_reading] of
    that detector is flagged exactly when its count rate is above the new
    value, with the dose of the unchanged type; rows of other detectors,
    and so their thresholds, are left as they were. *)
Theorem set_threshold_then_record_reading
    (st : db) (did : string) (d : DetectorUnit) (a : Q) (now : datetime) (c : Q) :
  select_detector did st = Some d ->
  (exists r st',
     record_reading now did c (snd (set_threshold did a st)) = Ok (r, st') /\
     (alert_triggered r = true <-> a < c) /\
     dose_usv_h r = c * dict_get CPS_TO_DOSE (type d) 0.005) /\
  (forall other, other <> did ->
     select_detector other (snd (set_threshold did a st)) = select_detector other st).
Proof.
  intro Hd. split.
  - unfold record_reading. rewrite (set_threshold_stored did a st d Hd). cbv zeta.
    do 2 eexists. split; [reflexivity|]. simpl. split; [apply gt_true_iff|reflexivity].
  - intros other Hne. simpl. now apply select_detector_other.
Qed.

Lemma set_threshold_then_record_reading_witness :
  select_detector "0a1b2c3d" hall_readings = Some hall_unit /\
  (exists r st',
     record_reading (after_seconds 30) "0a1b2c3d" 50
       (snd (set_threshold "0a1b2c3d" 40 hall_readings)) = Ok (r, st') /\
     (alert_triggered r = true <-> 40 < 50) /\
     dose_usv_h r = 50 * dict_get CPS_TO_DOSE (type hall_unit) 0.005) /\
  (forall other, other <> "0a1b2c3d" ->
     select_detector other (snd (set_threshold "0a1b2c3d" 40 hall_readings))
     = select_detector other hall_readings).
Proof.
  split; [reflexivity|].
  apply (set_threshold_then_record_reading hall_readings "0a1b2c3d" hall_unit 40
           (after_seconds 30) 50).
  reflexivity.
Defined.

(** Rows that differ only in columns which the two aggregations do not
    read. *)
Lemma scan_from_map (st : db) (g : DetectorUnit -> DetectorUnit)
    (ds : list DetectorUnit) (acc : result (list anomaly)) :
  (forall d, id (g d) = id d /\ baseline_cps (g d) = baseline_cps d) ->
  scan_from st (map g ds) acc = scan_from st ds acc.
Proof.
  intro Hg. revert acc. induction ds as [|d ds IH]; intro acc; simpl; [reflexivity|].
  unfold scan_from in *. simpl. rewrite IH. f_equal.
  destruct acc as [l|e]; simpl; [|reflexivity].
  unfold anomaly_step. destruct (Hg d) as [-> ->]. reflexivity.
Qed.

Lemma flat_map_status_map (st : db) (g : DetectorUnit -> DetectorUnit)
    (ds : list DetectorUnit) :
  (forall d, identity_of (g d) = identity_of d) ->
  flat_map (status_of_detector st) (map g ds) = flat_map (status_of_detector st) ds.
Proof.
  intro Hg. induction ds as [|d ds IH]; simpl; [reflexivity|].
  rewrite IH. f_equal. unfold status_of_detector, status_of.
  pose proof (Hg d) as H. unfold identity_of in H.
  injection H as -> -> -> -> _ ->. reflexivity.
Qed.

Lemma export_ndf_updated (did other path : string) (f : DetectorUnit -> DetectorUnit)
    (st : db) :
  (forall d, identity_of (f d) = identity_of d /\ baseline_cps (f d) = baseline_cps d) ->
  export_ndf other path (update_detectors did f st) = export_ndf other path st.
Proof.
  intro Hf. unfold export_ndf.
  rewrite update_detectors_select
    by (intro d; apply (identity_of_fields _ _ (proj1 (Hf d)))).
  destruct (select_detector other st) as [d|]; simpl; [|reflexivity].
  destruct (String.eqb (id d) did); [|reflexivity].
  destruct (Hf d) as [Hi Hb]. unfold identity_of in Hi.
  injection Hi as _ -> -> -> _ _. rewrite Hb. reflexivity.
Qed.

(** X14: a threshold change is invisible to every query.  After
    [set_threshold], whatever the identifier and the value, [fleet_status],
    [anomaly_scan], [get_spectrum], [get_dose] and [export_ndf] return what
    they returned before: the threshold is read by [record_reading] only. *)
Theorem set_threshold_changes_no_query (st : db) (did : string) (a : Q) :
  fleet_status (snd (set_threshold did a st)) = fleet_status st /\
  anomaly_scan (snd (set_threshold did a st)) = anomaly_scan st /\
  (forall now other hours,
     get_spectrum now other hours (snd (set_threshold did a st))
     = get_spectrum now other hours st) /\
  (forall now other hours,
     get_dose now other hours (snd (set_threshold did a st))
     = get_dose now other hours st) /\
  (forall other path,
     export_ndf other path (snd (set_threshold did a st)) = export_ndf other path st).
Proof.
  pose (g := fun d => if String.eqb (id d) did
                      then {| id := id d; name := name d; location := location d;
                              type := type d; sensitivity := sensitivity d;
                              baseline_cps := baseline_cps d; status := status d;
                              last_calibration := last_calibration d;
                              alert_threshold := a |}
                      else d).
  assert (Hg : forall d, identity_of (g d) = identity_of d /\
                         baseline_cps (g d) = baseline_cps d)
    by (intro d; unfold g; now destruct (String.eqb (id d) did)).
  split; [|split; [|split; [|split]]].
  - rewrite !fleet_status_flat_map.
    change (flat_map (status_of_detector st) (map g (detectors st))
            = flat_map (status_of_detector st) (detectors st)).
    apply flat_map_status_map. intro d. apply Hg.
  - change (scan_from st (map g (detectors st)) (Ok [])
            = scan_from st (detectors st) (Ok [])).
    apply scan_from_map. intro d. destruct (Hg d) as [Hi Hb].
    split; [apply (identity_of_fields _ _ Hi) | exact Hb].
  - reflexivity.
  - reflexivity.
  - intros other path. simpl. apply export_ndf_updated.
    intro d. now destruct (String.eqb (id d) did).
Qed.

Lemma filter_other (st : db) (did other : string) (r : NeutronReading)
    (q : NeutronReading -> bool) :
  detector_id r = did -> other <> did ->
  filter (fun x => String.eqb (detector_id x) other && q x) (readings st ++ [r])
  = filter (fun x => String.eqb (detector_id x) other && q x) (readings st).
Proof.
  intros Hid Hne. rewrite filter_app. simpl. rewrite Hid.
  assert (E : String.eqb did other = false)
    by (apply String.eqb_neq; congruence).
  rewrite E. simpl. apply app_nil_r.
Qed.

Lemma filter_other_id (st : db) (did other : string) (r : NeutronReading) :
  detector_id r = did -> other <> did ->
  filter (fun x => String.eqb (detector_id x) other) (readings st ++ [r])
  = filter (fun x => String.eqb (detector_id x) other) (readings st).
Proof.
  intros Hid Hne. rewrite filter_app. simpl. rewrite Hid.
  assert (E : String.eqb did other = false)
    by (apply String.eqb_neq; congruence).
  rewrite E. apply app_nil_r.
Qed.

(** X15: a reading concerns its own detector only.  After [record_reading]
    for one detector, the latest reading, the spectrum, the dose and the
    export of every other identifier are what they were, and the detector
    rows are untouched. *)
Theorem record_reading_leaves_other_detectors
    (st : db) (did other : string) (d : DetectorUnit) (now : datetime) (c : Q) :
  select_detector did st = Some d ->
  other <> did ->
  exists r st',
    record_reading now did c st = Ok (r, st') /\
    detectors st' = detectors st /\
    latest_reading other st' = latest_reading other st /\
    (forall now' hours,
       get_spectrum now' other hours st' = get_spectrum now' other hours st) /\
    (forall now' hours, get_dose now' other hours st' = get_dose now' other hours st) /\
    (forall path, export_ndf other path st' = export_ndf other path st).
Proof.
  intros Hd Hne. unfold record_reading. rewrite Hd. cbv zeta.
  do 2 eexists. split; [reflexivity|].
  match goal with
  | |- context [insert_reading ?x st] => set (r := x)
  end.
  assert (Hf : forall q,
             filter (fun x => String.eqb (detector_id x) other && q x)
                    (readings (insert_reading r st))
             = filter (fun x => String.eqb (detector_id x) other && q x) (readings st))
    by (intro q; now apply (filter_other st did other r q)).
  assert (Hf' : filter (fun x => String.eqb (detector_id x) other)
                       (readings (insert_reading r st))
                = filter (fun x => String.eqb (detector_id x) other) (readings st))
    by (now apply (filter_other_id st did other r)).
  assert (Hw : forall since, window other since (insert_reading r st)
                             = window other since st)
    by (intro since; unfold window; apply Hf).
  split; [reflexivity|]. split; [|split; [|split]].
  - unfold latest_reading. now rewrite Hf'.
  - intros now' hours. unfold get_spectrum, readings_since.
    destruct (minus_hours now' hours); simpl; [|reflexivity]. now rewrite Hw.
  - intros now' hours. unfold get_dose, sum_dose_since.
    destruct (minus_hours now' hours); simpl; [|reflexivity]. now rewrite Hw.
  - intro path. unfold export_ndf, readings_of.
    change (select_detector other (insert_reading r st))
      with (select_detector other st).
    now rewrite Hf'.
Qed.

Lemma record_reading_leaves_other_detectors_witness :
  select_detector "0a1b2c3d" hall_readings = Some hall_unit /\
  "4e5f6a7b" <> "0a1b2c3d" /\
  exists r st',
    record_reading (after_seconds 30) "0a1b2c3d" 12.5 hall_readings = Ok (r, st') /\
    detectors st' = detectors hall_readings /\
    latest_reading "4e5f6a7b" st' = latest_reading "4e5f6a7b" hall_readings /\
    (forall now' hours,
       get_spectrum now' "4e5f6a7b" hours st'
       = get_spectrum now' "4e5f6a7b" hours hall_readings) /\
    (forall now' hours,
       get_dose now' "4e5f6a7b" hours st' = get_dose now' "4e5f6a7b" hours hall_readings) /\
    (forall path,
       export_ndf "4e5f6a7b" path st' = export_ndf "4e5f6a7b" path hall_readings).
Proof.
  split; [reflexivity|]. split; [discriminate|].
  apply (record_reading_leaves_other_detectors hall_readings "0a1b2c3d" "4e5f6a7b"
           hall_unit (after_seconds 30) 12.5); [reflexivity | discriminate].
Defined.

Lemma scan_from_app (st : db) (ds ds' : list DetectorUnit) (acc : result (list anomaly)) :
  scan_from st (ds ++ ds') acc = scan_from st ds' (scan_from st ds acc).
Proof. unfold scan_from. apply fold_left_app. Qed.

(** X16: a new detector is silent.  In a store whose readings all belong
    to stored detectors, a registration under a new identifier changes
    neither [fleet_status] nor [anomaly_scan]; the new detector has no
    latest reading, an empty spectrum and dose 0.0 until a reading is
    recorded for it. *)
Theorem register_detector_changes_no_query
    (st : db) (uuid8 : string) (now : datetime) (name location ty : string) (sens : Q) :
  doses_follow_table st ->
  select_detector uuid8 st = None ->
  exists st',
    register_detector uuid8 now name location ty sens st = Ok (uuid8, st') /\
    fleet_status st' = fleet_status st /\
    anomaly_scan st' = anomaly_scan st /\
    latest_reading uuid8 st' = None /\
    forall now' hours since,
      minus_hours now' hours = Ok since ->
      get_spectrum now' uuid8 hours st' = Ok [] /\
      get_dose now' uuid8 hours st' = Ok 0.0.
Proof.
  intros Hinv Hnone. unfold register_detector. rewrite Hnone.
  eexists. split; [reflexivity|].
  pose proof (unknown_has_no_readings st uuid8 Hinv Hnone) as Hno.
  assert (Hl : latest_reading uuid8 st = None) by now apply latest_reading_None.
  split; [|split; [|split]].
  - rewrite !fleet_status_flat_map. simpl. rewrite flat_map_app. simpl.
    unfold status_of_detector at 2. simpl.
    change (latest_reading uuid8 _) with (latest_reading uuid8 st).
    rewrite Hl. simpl. now rewrite app_nil_r.
  - change (anomaly_scan st) with (scan_from st (detectors st) (Ok [])).
    change (scan_from st (detectors st ++ [fresh_unit uuid8 now name location ty sens])
                      (Ok [])
            = scan_from st (detectors st) (Ok [])).
    rewrite scan_from_app. destruct (scan_from st (detectors st) (Ok [])) as [l|e];
      [|reflexivity].
    unfold scan_from. simpl. unfold anomaly_step. simpl. now rewrite Hl.
  - exact Hl.
  - intros now' hours since Hs. split.
    + rewrite (get_spectrum_eq _ _ _ _ _ Hs). unfold readings_since.
      change (window uuid8 since _) with (window uuid8 since st).
      now rewrite (no_reading_window st uuid8 since Hno).
    + unfold get_dose, sum_dose_since. rewrite Hs. cbn [Py.bind].
      change (window uuid8 since _) with (window uuid8 since st).
      now rewrite (no_reading_window st uuid8 since Hno).
Qed.

Lemma register_detector_changes_no_query_witness :
  doses_follow_table hall_readings /\
  select_detector "4e5f6a7b" hall_readings = None /\
  exists st',
    register_detector "4e5f6a7b" (after_seconds 40) "N2" "roof" "scintillator" 1.0
      hall_readings = Ok ("4e5f6a7b", st') /\
    fleet_status st' = fleet_status hall_readings /\
    anomaly_scan st' = anomaly_scan hall_readings /\
    latest_reading "4e5f6a7b" st' = None /\
    forall now' hours since,
      minus_hours now' hours = Ok since ->
      get_spectrum now' "4e5f6a7b" hours st' = Ok [] /\
      get_dose now' "4e5f6a7b" hours st' = Ok 0.0.
Proof.
  split; [exact hall_readings_doses|]. split; [reflexivity|].
  apply (register_detector_changes_no_query hall_readings "4e5f6a7b" (after_seconds 40)
           "N2" "roof" "scintillator" 1.0); [exact hall_readings_doses | reflexivity].
Defined.

(** ** Anomaly scan, calibration and dose bounds *)


Lemma exceedsb_anomalies (st : db) (d : DetectorUnit) :
  map an_detector_id (anomalies_of st d) = if exceedsb st d then [id d] else [].
Proof.
  unfold anomalies_of, exceedsb.
  destruct (latest_reading (id d) st) as [r|]; [|reflexivity].
  now destruct (Py.gt (cps r) (baseline_cps d * 3)).
Qed.

(** X18: what [anomaly_scan] returns when it returns.  If no detector with
    baseline zero has a latest reading above three times that baseline, the
    call returns a list that holds, in the order of the detector rows and
    once per row, exactly the detectors whose latest reading is strictly
    above three times their baseline, each with its baseline, that reading's
    count rate and timestamp, and multiplier [round(cps / baseline, 2)]. *)
Theorem anomaly_scan_lists_exceeding_detectors (st : db) :
  (forall d, In d (detectors st) -> ~ divides_by_zero st d) ->
  exists l,
    anomaly_scan st = Ok l /\
    map an_detector_id l = map id (filter (exceedsb st) (detectors st)) /\
    forall a, In a l <->
      exists d r, In d (detectors st) /\ latest_reading (id d) st = Some r /\
                  baseline_cps d * 3 < cps r /\
                  a = {| an_detector_id := id d; an_baseline_cps := baseline_cps d;
                         an_current_cps := cps r;
                         an_multiplier := Py.round (cps r / baseline_cps d) 2;
                         an_timestamp := timestamp r |}.
Proof.
  intro Hno.
  change (anomaly_scan st) with (scan_from st (detectors st) (Ok [])).
  destruct (scan_from_cases st (detectors st) []) as [[[d [Hd Hz]] _]|[_ Hr]].
  - exfalso. exact (Hno d Hd Hz).
  - rewrite Hr. eexists. split; [reflexivity|]. simpl. split.
    + clear Hno Hr. induction (detectors st) as [|d ds IH]; simpl; [reflexivity|].
      rewrite map_app, exceedsb_anomalies, IH. now destruct (exceedsb st d).
    + intro a. rewrite in_flat_map. split.
      * intros [d [Hd Ha]]. apply anomalies_of_In in Ha.
        destruct Ha as [r [[Hl Hlt] ->]]. now exists d, r.
      * intros [d [r [Hd [Hl [Hlt ->]]]]]. exists d. split; [exact Hd|].
        apply anomalies_of_In. exists r. now split.
Qed.

Lemma calibrated_store_divides (d : DetectorUnit) :
  In d (detectors calibrated_store) -> ~ divides_by_zero calibrated_store d.
Proof.
  intros [<-|[]] [r [_ Hz]]. discriminate Hz.
Defined.

Lemma anomaly_scan_lists_exceeding_detectors_witness :
  (forall d, In d (detectors calibrated_store) -> ~ divides_by_zero calibrated_store d) /\
  exists l,
    anomaly_scan calibrated_store = Ok l /\
    map an_detector_id l
    = map id (filter (exceedsb calibrated_store) (detectors calibrated_store)) /\
    forall a, In a l <->
      exists d r, In d (detectors calibrated_store) /\
                  latest_reading (id d) calibrated_store = Some r /\
                  baseline_cps d * 3 < cps r /\
                  a = {| an_detector_id := id d; an_baseline_cps := baseline_cps d;
                         an_current_cps := cps r;
                         an_multiplier := Py.round (cps r / baseline_cps d) 2;
                         an_timestamp := timestamp r |}.
Proof.
  split; [exact calibrated_store_divides|].
  apply (anomaly_scan_lists_exceeding_detectors calibrated_store).
  exact calibrated_store_divides.
Defined.

Example anomaly_scan_calibrated_store :
  anomaly_scan calibrated_store
  = Ok [ {| an_detector_id := "0a1b2c3d"; an_baseline_cps := 10;
            an_current_cps := 50; an_multiplier := 5.00;
            an_timestamp := after_seconds 15 |} ].
Proof. vm_compute. reflexivity. Qed.






Lemma conversion_factor_bounds (ty : string) :
  0.0042 <= dict_get CPS_TO_DOSE ty 0.005 /\ dict_get CPS_TO_DOSE ty 0.005 <= 0.0075.
Proof.
  unfold CPS_TO_DOSE. simpl.
  repeat match goal with
         | |- context [if ?b then _ else _] => destruct b
         end; split; vm_compute; discriminate.
Qed.

Lemma Qmult_le_l_nonneg (c x y : Q) : 0 <= c -> x <= y -> c * x <= c * y.
Proof.
  intros Hc Hxy. setoid_rewrite Qmult_comm at 1 2. now apply Qmult_le_compat_r.
Qed.

(** X20: the dose is a bounded multiple of the count rate.  Whatever the
    stored type of a registered detector is, one of the five of the table
    or any other string, the reading returned for a non-negative count rate
    has a dose between 0.0042 and 0.0075 times that rate; in particular it
    is non-negative. *)
Theorem record_reading_dose_bounds
    (st : db) (did : string) (d : DetectorUnit) (now : datetime) (c : Q) :
  select_detector did st = Some d ->
  0 <= c ->
  exists r st',
    record_reading now did c st = Ok (r, st') /\
    c * 0.0042 <= dose_usv_h r /\ dose_usv_h r <= c * 0.0075 /\ 0 <= dose_usv_h r.
Proof.
  intros Hd Hc. unfold record_reading. rewrite Hd. cbv zeta.
  do 2 eexists. split; [reflexivity|]. cbn [dose_usv_h].
  destruct (conversion_factor_bounds (type d)) as [H1 H2].
  assert (H0 : 0 <= dict_get CPS_TO_DOSE (type d) 0.005)
    by (apply (Qle_trans _ 0.0042); [vm_compute; discriminate | exact H1]).
  split; [|split].
  - apply Qmult_le_l_nonneg; assumption.
  - apply Qmult_le_l_nonneg; assumption.
  - now apply Qmult_le_0_compat.
Qed.

Lemma record_reading_dose_bounds_witness :
  select_detector "0a1b2c3d" hall_readings = Some hall_unit /\
  0 <= 12.5 /\
  exists r st',
    record_reading (after_seconds 30) "0a1b2c3d" 12.5 hall_readings = Ok (r, st') /\
    12.5 * 0.0042 <= dose_usv_h r /\ dose_usv_h r <= 12.5 * 0.0075 /\
    0 <= dose_usv_h r.
Proof.
  split; [reflexivity|]. split; [vm_compute; discriminate|].
  apply (record_reading_dose_bounds hall_readings "0a1b2c3d" hall_unit
           (after_seconds 30) 12.5); [reflexivity | vm_compute; discriminate].
Defined.

(** X21: a calibration rewrites baseline and calibration time only.
    Whatever [calibrate] does (raise, return 0.0, or store a new baseline),
    afterwards the readings, the identity columns and the alert threshold of
    every detector row, and hence the results of [fleet_status],
    [get_spectrum] and [get_dose], are what they were. *)
Theorem calibrate_changes_baseline_only
    (st : db) (did : string) (now_spectrum now : datetime) :
  readings (store_after st (calibrate now_spectrum now did st)) = readings st /\
  map identity_of (detectors (store_after st (calibrate now_spectrum now did st)))
  = map identity_of (detectors st) /\
  map alert_threshold (detectors (store_after st (calibrate now_spectrum now did st)))
  = map alert_threshold (detectors st) /\
  fleet_status (store_after st (calibrate now_spectrum now did st)) = fleet_status st /\
  (forall now' other hours,
     get_spectrum now' other hours (store_after st (calibrate now_spectrum now did st))
     = get_spectrum now' other hours st) /\
  (forall now' other hours,
     get_dose now' other hours (store_after st (calibrate now_spectrum now did st))
     = get_dose now' other hours st).
Proof.
  destruct (calibrate_store now_spectrum now did st) as [H|[avg H]]; rewrite H.
  - repeat split; reflexivity.
  - pose (g := fun d => if String.eqb (id d) did then calibrated d avg now else d).
    assert (Hg : forall d, identity_of (g d) = identity_of d /\
                           alert_threshold (g d) = alert_threshold d)
      by (intro d; unfold g; now destruct (String.eqb (id d) did)).
    split; [reflexivity|]. split; [|split; [|split; [|split]]].
    + change (map identity_of (map g (detectors st)) = map identity_of (detectors st)).
      rewrite map_map. apply map_ext. intro d. apply Hg.
    + change (map alert_threshold (map g (detectors st))
              = map alert_threshold (detectors st)).
      rewrite map_map. apply map_ext. intro d. apply Hg.
    + rewrite !fleet_status_flat_map.
      change (flat_map (status_of_detector st) (map g (detectors st))
              = flat_map (status_of_detector st) (detectors st)).
      apply flat_map_status_map. intro d. apply Hg.
    + reflexivity.
    + reflexivity.
Qed.

(** ** Windows and cross-checks *)

Lemma minus_hours_Ok (now : datetime) (hours : Z) (since : datetime) :
  minus_hours now hours = Ok since <->
  since = (now - hours * MICROSECONDS_PER_HOUR)%Z /\ (0 <= since <= DATETIME_MAX)%Z.
Proof.
  unfold minus_hours.
  destruct ((0 <=? now - hours * MICROSECONDS_PER_HOUR)%Z
            && (now - hours * MICROSECONDS_PER_HOUR <=? DATETIME_MAX)%Z) eqn:E.
  - apply andb_true_iff in E. rewrite !Z.leb_le in E. split.
    + intro H. injection H as <-. split; [reflexivity | exact E].
    + intros [-> _]. reflexivity.
  - split; [discriminate|]. intros [-> H].
    apply andb_false_iff in E. rewrite !Z.leb_gt in E. lia.
Qed.

Lemma minus_hours_Raise (now : datetime) (hours : Z) :
  minus_hours now hours = Raise OverflowError <->
  ~ (0 <= now - hours * MICROSECONDS_PER_HOUR <= DATETIME_MAX)%Z.
Proof.
  unfold minus_hours.
  destruct ((0 <=? now - hours * MICROSECONDS_PER_HOUR)%Z
            && (now - hours * MICROSECONDS_PER_HOUR <=? DATETIME_MAX)%Z) eqn:E.
  - apply andb_true_iff in E. rewrite !Z.leb_le in E. split; [discriminate|tauto].
  - apply andb_false_iff in E. rewrite !Z.leb_gt in E. split; [lia|reflexivity].
Qed.

(** X22: the window must be a date.  [get_spectrum] and [get_dose] raise
    [OverflowError] exactly when the clock value minus the given number
    of hours falls outside the range of [datetime] (before year 1 or after
    year 9999), whatever the identifier and the store hold; in every other
    case both return. *)
Theorem window_out_of_range_raises
    (now : datetime) (did : string) (hours : Z) (st : db) :
  (get_spectrum now did hours st = Raise OverflowError <->
   ~ (0 <= now - hours * MICROSECONDS_PER_HOUR <= DATETIME_MAX)%Z) /\
  (get_dose now did hours st = Raise OverflowError <->
   ~ (0 <= now - hours * MICROSECONDS_PER_HOUR <= DATETIME_MAX)%Z) /\
  ((0 <= now - hours * MICROSECONDS_PER_HOUR <= DATETIME_MAX)%Z ->
   (exists l, get_spectrum now did hours st = Ok l) /\
   (exists v, get_dose now did hours st = Ok v)).
Proof.
  rewrite <- !minus_hours_Raise. unfold get_spectrum, get_dose.
  split; [|split].
  - destruct (minus_hours now hours) as [s|e]; simpl;
      [|split; intro H; injection H as ->; reflexivity].
    split; discriminate.
  - destruct (minus_hours now hours) as [s|e]; simpl;
      [|split; intro H; injection H as ->; reflexivity].
    split; [|discriminate].
    destruct (sum_dose_since did s st) as [v|]; [|discriminate].
    destruct (Qeq_bool v 0); discriminate.
  - intro H.
    assert (Hs : minus_hours now hours = Ok (now - hours * MICROSECONDS_PER_HOUR)%Z)
      by (apply minus_hours_Ok; split; [reflexivity | exact H]).
    rewrite Hs. simpl. split; [eexists; reflexivity|].
    destruct (sum_dose_since did _ st) as [v|]; [|eexists; reflexivity].
    destruct (Qeq_bool v 0); eexists; reflexivity.
Qed.

(** Twenty million hours before 2026 lie before year 1. *)
Example get_spectrum_overflow :
  get_spectrum t0 "0a1b2c3d" 20000000 hall_readings = Raise OverflowError /\
  get_dose t0 "0a1b2c3d" (-80000000) hall_readings = Raise OverflowError.
Proof. split; reflexivity. Qed.

Lemma filter_map_swap {A B : Type} (f : A -> B) (p : B -> bool) (l : list A) :
  filter p (map f l) = map f (filter (fun x => p (f x)) l).
Proof.
  induction l as [|x l IH]; simpl; [reflexivity|].
  destruct (p (f x)); simpl; now rewrite IH.
Qed.

Lemma filter_filter_implied {A : Type} (p q : A -> bool) (l : list A) :
  (forall x, p x = true -> q x = true) ->
  filter p (filter q l) = filter p l.
Proof.
  intro H. induction l as [|x l IH]; simpl; [reflexivity|].
  destruct (q x) eqn:Eq; simpl; [now rewrite IH|].
  destruct (p x) eqn:Ep; [|exact IH].
  rewrite (H x Ep) in Eq. discriminate.
Qed.

(** X23: a shorter window is a cut of a longer one.  For the same clock
    value, the spectrum of the shorter of two windows is the spectrum of
    the longer one restricted to the entries whose timestamp is in the
    shorter window, in the same order. *)
Theorem get_spectrum_narrower_window
    (st : db) (did : string) (now : datetime) (h1 h2 : Z) (s1 s2 : datetime) :
  minus_hours now h1 = Ok s1 ->
  minus_hours now h2 = Ok s2 ->
  (h1 <= h2)%Z ->
  exists l1 l2,
    get_spectrum now did h1 st = Ok l1 /\
    get_spectrum now did h2 st = Ok l2 /\
    l1 = filter (fun p => (s1 <=? fst p)%Z) l2.
Proof.
  intros H1 H2 Hle.
  rewrite (get_spectrum_eq _ _ _ _ _ H1), (get_spectrum_eq _ _ _ _ _ H2).
  do 2 eexists. split; [reflexivity|]. split; [reflexivity|].
  rewrite !readings_since_of, filter_map_swap. simpl. f_equal.
  symmetry. apply filter_filter_implied. intros r Hr.
  apply minus_hours_Ok in H1. apply minus_hours_Ok in H2.
  destruct H1 as [-> _]. destruct H2 as [-> _].
  apply Z.leb_le in Hr. apply Z.leb_le.
  unfold MICROSECONDS_PER_HOUR in *. lia.
Qed.

Lemma get_spectrum_narrower_window_witness :
  minus_hours (after_seconds 3606) 1 = Ok (after_seconds 6) /\
  minus_hours (after_seconds 3606) 24 = Ok (after_seconds (3606 - 86400)) /\
  (1 <= 24)%Z /\
  exists l1 l2,
    get_spectrum (after_seconds 3606) "0a1b2c3d" 1 hall_readings = Ok l1 /\
    get_spectrum (after_seconds 3606) "0a1b2c3d" 24 hall_readings = Ok l2 /\
    l1 = filter (fun p => (after_seconds 6 <=? fst p)%Z) l2.
Proof.
  split; [reflexivity|]. split; [reflexivity|]. split; [discriminate|].
  apply (get_spectrum_narrower_window hall_readings "0a1b2c3d" (after_seconds 3606)
           1 24 (after_seconds 6) (after_seconds (3606 - 86400)));
    [reflexivity | reflexivity | discriminate].
Defined.

(** One hour back from 01:00:06 after the first instant keeps the reading
    stamped 00:00:06 and drops the one stamped 00:00:05. *)
Example get_spectrum_one_hour :
  get_spectrum (after_seconds 3606) "0a1b2c3d" 1 hall_readings
  = Ok [(after_seconds 6, 20)] /\
  get_spectrum (after_seconds 3606) "0a1b2c3d" 24 hall_readings
  = Ok [(after_seconds 5, 10); (after_seconds 6, 20)].
Proof. split; reflexivity. Qed.

(** X24: anomalies and fleet status read the same reading.  Every entry
    that [anomaly_scan] returns belongs to a detector that [fleet_status]
    lists too, with the same count rate and the same timestamp. *)
Theorem anomaly_entries_are_fleet_entries (st : db) (l : list anomaly) (a : anomaly) :
  anomaly_scan st = Ok l ->
  In a l ->
  exists e, In e (fleet_status st) /\
            st_id e = an_detector_id a /\
            st_cps e = an_current_cps a /\
            st_timestamp e = an_timestamp a.
Proof.
  change (anomaly_scan st) with (scan_from st (detectors st) (Ok [])).
  destruct (scan_from_cases st (detectors st) []) as [[_ Hr]|[_ Hr]];
    rewrite Hr; intros H Ha; [discriminate|].
  injection H as <-. simpl in Ha. apply in_flat_map in Ha.
  destruct Ha as [d [Hd Ha]]. apply anomalies_of_In in Ha.
  destruct Ha as [r [[Hl _] ->]].
  exists (status_of d r). split; [|repeat split].
  apply fleet_status_In. now exists d, r.
Qed.

Lemma anomaly_entries_are_fleet_entries_witness :
  anomaly_scan calibrated_store = Ok [calibrated_anomaly] /\
  In calibrated_anomaly [calibrated_anomaly] /\
  exists e, In e (fleet_status calibrated_store) /\
            st_id e = an_detector_id calibrated_anomaly /\
            st_cps e = an_current_cps calibrated_anomaly /\
            st_timestamp e = an_timestamp calibrated_anomaly.
Proof.
  split; [reflexivity|]. split; [now left|].
  apply (anomaly_entries_are_fleet_entries calibrated_store [calibrated_anomaly]
           calibrated_anomaly); [reflexivity | now left].
Defined.
